(** * learnai44: the study-session controller and the data-access module

    A shallow embedding of
    - the view state of [src/app/study-set/[id]/page.tsx]
      ([currentCardIndex], [isFlipped] and the three handlers), and
    - the data-access functions of [lib/supabase-server]
      ([getStudySets], [getFlashcards], [createStudySet], [deleteStudySet],
      [toggleStar]),
    together with the properties the specification states about them. *)

From Stdlib Require Import ZArith Lia.
From stdpp Require Import base decidable option list strings gmap sorting pretty.

Local Open Scope Z_scope.

(** ** Database types

    The rows of the three tables, and the two exported interfaces of the
    data-access module. A [number] is a [Z]; a timestamp is an instant (the
    store orders rows on it, the client only carries it around);
    [string | null] and an optional field are an [option]. A table row has the
    table's columns only: [flashcard_count] and [is_starred] are added by the
    client, so they are absent ([None]) on a row taken as it was selected. *)

Module StudySetRow.
Record t := mk {
  id : string;
  user_id : string;
  title : string;
  description : option string;
  created_at : Z;
  updated_at : Z
}.
End StudySetRow.

Module StudySet.
Record t := mk {
  id : string;
  user_id : string;
  title : string;
  description : option string;
  created_at : Z;
  updated_at : Z;
  flashcard_count : option Z
}.

(** A selected row, seen at the type [StudySet]. *)
Definition of_row (r : StudySetRow.t) : t :=
  mk (StudySetRow.id r) (StudySetRow.user_id r) (StudySetRow.title r)
     (StudySetRow.description r) (StudySetRow.created_at r)
     (StudySetRow.updated_at r) None.

(** [{ ...set, flashcard_count: n }] *)
Definition with_flashcard_count (set : StudySetRow.t) (n : Z) : t :=
  mk (StudySetRow.id set) (StudySetRow.user_id set) (StudySetRow.title set)
     (StudySetRow.description set) (StudySetRow.created_at set)
     (StudySetRow.updated_at set) (Some n).
End StudySet.

Module FlashcardRow.
Record t := mk {
  id : string;
  study_set_id : string;
  term : string;
  definition : string;
  position : Z;
  created_at : Z
}.
End FlashcardRow.

Module Flashcard.
Record t := mk {
  id : string;
  study_set_id : string;
  term : string;
  definition : string;
  position : Z;
  created_at : Z;
  is_starred : option bool
}.

(** A selected row, seen at the type [Flashcard]. *)
Definition of_row (r : FlashcardRow.t) : t :=
  mk (FlashcardRow.id r) (FlashcardRow.study_set_id r) (FlashcardRow.term r)
     (FlashcardRow.definition r) (FlashcardRow.position r)
     (FlashcardRow.created_at r) None.

(** The columns of a card, without the flag the client added. *)
Definition to_row (c : t) : FlashcardRow.t :=
  FlashcardRow.mk (id c) (study_set_id c) (term c) (definition c) (position c)
                  (created_at c).

(** [{ ...card, is_starred: b }] *)
Definition with_is_starred (card : FlashcardRow.t) (b : bool) : t :=
  mk (FlashcardRow.id card) (FlashcardRow.study_set_id card)
     (FlashcardRow.term card) (FlashcardRow.definition card)
     (FlashcardRow.position card) (FlashcardRow.created_at card) (Some b).
End Flashcard.

(** A row of the association table [starred_flashcards]. *)
Module Starred.
Record t := mk { user_id : string; flashcard_id : string }.
End Starred.

(** ** The study-session controller

    [useState(0)] and [useState(false)] of [StudySetPage], and the handlers
    [handleFlipCard], [handleNextCard], [handlePrevCard]. Each handler is one
    transition of the pair of state cells; [flashcards] is the list the
    handlers close over. [%] is JavaScript's remainder, which takes the sign
    of the dividend: [Z.rem]. *)

Module Session.
Record State := mkState { currentCardIndex : Z; isFlipped : bool }.

Definition initial : State := mkState 0 false.

(** The operations a user can trigger, by click or by key. *)
Inductive Op := Flip | Next | Previous.

Section Handlers.
Variable flashcards : list Flashcard.t.

(** [flashcards.length] *)
Definition cardCount : Z := Z.of_nat (length flashcards).

Definition handleFlipCard (s : State) : State :=
  mkState (currentCardIndex s) (negb (isFlipped s)).

Definition handleNextCard (s : State) : State :=
  if cardCount =? 0 then s
  else mkState (Z.rem (currentCardIndex s + 1) cardCount) false.

Definition handlePrevCard (s : State) : State :=
  if cardCount =? 0 then s
  else mkState (Z.rem (currentCardIndex s - 1 + cardCount) cardCount) false.

Definition step (s : State) (o : Op) : State :=
  match o with
  | Flip => handleFlipCard s
  | Next => handleNextCard s
  | Previous => handlePrevCard s
  end.

Definition run (ops : list Op) (s : State) : State := foldl step s ops.
End Handlers.
End Session.

(** ** The remote store, as the client sees it *)

(** Modelled from the spec: the hosted relational store behind the [supabase]
    client is an external collaborator and none of its code is in the
    repository. Section 6 of the specification lists what it offers: three
    collections, filter by equality, order by a column, count-only queries,
    single-row fetch, insert with returning, delete by filter. The
    definitions from here to the query chains give each query shape that the
    data-access module issues.

    - A request resolves to a response object [{ data, error, count }]; the
      client never rejects (the functions test [error], they do not catch a
      rejected request).
    - A request may fail for a reason outside the program (transport,
      authorisation, a refusal by the store): [fails w n r] says whether the
      request [r], issued as the [n]-th request of the world [w], fails. A
      failed request changes nothing in the store and answers with
      [error = RequestFailed] and no data.
    - The association table carries no uniqueness constraint of its own: an
      insert adds a row. The data model keeps at most one row per pair by
      checking before it inserts, which is what the program does.
    - [trace] records every request issued with its success flag, in order;
      [console] records the calls of [console.error]. *)
Inductive StoreError :=
| RequestFailed
| NotSingleRow.

Record Response (A : Type) := mkResponse {
  data : option A;
  error : option StoreError;
  count : option Z
}.
Arguments mkResponse {A}.
Arguments data {A}.
Arguments error {A}.
Arguments count {A}.

Record Store := mkStore {
  study_sets : list StudySetRow.t;
  flashcards : list FlashcardRow.t;
  starred_flashcards : list Starred.t;
  serial : N;
  clock : Z
}.

(** The query shapes of the data-access module, one constructor per chain of
    the query builder in the source. *)
Inductive Request :=
| SelectStudySets (user_id : string)
| CountFlashcards (study_set_id : string)
| SelectFlashcards (study_set_id : string)
| SelectStarred (user_id : string)
| InsertStudySet (user_id title : string) (description : option string)
| DeleteFlashcards (study_set_id : string)
| DeleteStudySet (id : string)
| SelectStarredSingle (user_id flashcard_id : string)
| DeleteStarred (user_id flashcard_id : string)
| InsertStarred (user_id flashcard_id : string)
| SelectStudySet (id : string).

Record World := mkWorld {
  db : Store;
  fails : nat -> Request -> bool;
  trace : list (Request * bool);
  console : list (string * StoreError)
}.

(** *** Promises

    An [async] function run to completion: it resolves or rejects, and leaves
    a world behind. *)

Inductive Outcome (A : Type) :=
| Resolved (a : A)
| Rejected (e : StoreError).
Arguments Resolved {A}.
Arguments Rejected {A}.

Definition Task (A : Type) : Type := World -> Outcome A * World.

Definition ret {A} (a : A) : Task A := fun w => (Resolved a, w).

Definition bind {A B} (m : Task A) (k : A -> Task B) : Task B :=
  fun w =>
    match m w with
    | (Resolved a, w') => k a w'
    | (Rejected e, w') => (Rejected e, w')
    end.

Notation "'let!' x ':=' m 'in' k" := (bind m (fun x => k))
  (at level 10, x name, m at level 100, k at level 200).

(** [throw e] *)
Definition throw {A} (e : StoreError) : Task A := fun w => (Rejected e, w).

(** [try { body } catch (error) { handler }] *)
Definition try_catch {A} (body : Task A) (handler : StoreError -> Task A) : Task A :=
  fun w =>
    match body w with
    | (Resolved a, w') => (Resolved a, w')
    | (Rejected e, w') => handler e w'
    end.

(** [console.error(message, error)] *)
Definition console_error (message : string) (e : StoreError) : Task unit :=
  fun w =>
    (Resolved tt,
     mkWorld (db w) (fails w) (trace w) (console w ++ [(message, e)])).

(** [Promise.all(l.map(f))]: the requests are issued in the order of [l] and
    the results keep that order. *)
Fixpoint promise_all {A B} (f : A -> Task B) (l : list A) : Task (list B) :=
  match l with
  | [] => ret []
  | x :: l' =>
      let! y := f x in
      let! ys := promise_all f l' in
      ret (y :: ys)
  end.

(** *** Responses *)

Definition answer_data {A} (a : A) : Response A := mkResponse (Some a) None None.
Definition answer_count {A} (n : Z) : Response A := mkResponse None None (Some n).
Definition answer_empty {A} : Response A := mkResponse None None None.
Definition answer_error {A} (e : StoreError) : Response A := mkResponse None (Some e) None.

(** [.single()]: the one row of the result, an error when the result has no
    row or several. *)
Definition single {A} (rows : list A) : Response A :=
  match rows with
  | [r] => answer_data r
  | _ => answer_error NotSingleRow
  end.

(** Issue request [r]; when it gets through, the store answers by [answer]. *)
Definition query {A} (r : Request) (answer : Store -> Response A * Store)
  : Task (Response A) :=
  fun w =>
    let ok := negb (fails w (length (trace w)) r) in
    let t := trace w ++ [(r, ok)] in
    if ok then
      let '(resp, s) := answer (db w) in
      (Resolved resp, mkWorld s (fails w) t (console w))
    else
      (Resolved (answer_error RequestFailed), mkWorld (db w) (fails w) t (console w)).

(** *** The orders of [.order(column, { ascending })] *)

Definition newest_first (a b : StudySetRow.t) : Prop :=
  StudySetRow.updated_at b <= StudySetRow.updated_at a.

Definition by_position (a b : FlashcardRow.t) : Prop :=
  FlashcardRow.position a <= FlashcardRow.position b.

#[global] Instance newest_first_dec : RelDecision newest_first :=
  fun a b => decide (StudySetRow.updated_at b <= StudySetRow.updated_at a).

#[global] Instance by_position_dec : RelDecision by_position :=
  fun a b => decide (FlashcardRow.position a <= FlashcardRow.position b).

(** *** The rows a filter selects *)

Definition sets_of_user (userId : string) (s : Store) : list StudySetRow.t :=
  filter (fun r => StudySetRow.user_id r = userId) (study_sets s).

Definition cards_of_set (studySetId : string) (s : Store) : list FlashcardRow.t :=
  filter (fun r => FlashcardRow.study_set_id r = studySetId) (flashcards s).

Definition starred_of_user (userId : string) (s : Store) : list Starred.t :=
  filter (fun r => Starred.user_id r = userId) (starred_flashcards s).

Definition is_star (userId flashcardId : string) (r : Starred.t) : Prop :=
  Starred.user_id r = userId /\ Starred.flashcard_id r = flashcardId.

#[global] Instance is_star_dec u f r : Decision (is_star u f r).
Proof. unfold is_star. apply _. Defined.

Definition stars_of (userId flashcardId : string) (s : Store) : list Starred.t :=
  filter (is_star userId flashcardId) (starred_flashcards s).

(** *** The query chains of the source *)

(** [from('study_sets').select('*').eq('user_id', userId)
      .order('updated_at', { ascending: false })] *)
Definition select_study_sets (userId : string) : Task (Response (list StudySetRow.t)) :=
  query (SelectStudySets userId)
    (fun s => (answer_data (merge_sort newest_first (sets_of_user userId s)), s)).

(** [from('flashcards').select('*', { count: 'exact', head: true })
      .eq('study_set_id', id)] *)
Definition count_flashcards (studySetId : string) : Task (Response unit) :=
  query (CountFlashcards studySetId)
    (fun s => (answer_count (Z.of_nat (length (cards_of_set studySetId s))), s)).

(** [from('flashcards').select('*').eq('study_set_id', studySetId)
      .order('position', { ascending: true })] *)
Definition select_flashcards (studySetId : string) : Task (Response (list FlashcardRow.t)) :=
  query (SelectFlashcards studySetId)
    (fun s => (answer_data (merge_sort by_position (cards_of_set studySetId s)), s)).

(** [from('starred_flashcards').select('flashcard_id').eq('user_id', userId)];
    of a selected row the client reads [flashcard_id] only. *)
Definition select_starred (userId : string) : Task (Response (list Starred.t)) :=
  query (SelectStarred userId)
    (fun s => (answer_data (starred_of_user userId s), s)).

(** [from('study_sets').insert({ user_id, title, description }).select().single()]:
    the store names the row and stamps it. *)
Definition insert_study_set (userId title : string) (description : option string)
  : Task (Response StudySetRow.t) :=
  query (InsertStudySet userId title description)
    (fun s =>
       let row := StudySetRow.mk (pretty (serial s)) userId title description
                                 (clock s) (clock s) in
       (single [row],
        mkStore (study_sets s ++ [row]) (flashcards s) (starred_flashcards s)
                (N.succ (serial s)) (clock s + 1))).

(** [from('flashcards').delete().eq('study_set_id', studySetId)] *)
Definition delete_flashcards (studySetId : string) : Task (Response unit) :=
  query (DeleteFlashcards studySetId)
    (fun s =>
       (answer_empty,
        mkStore (study_sets s)
                (filter (fun r => FlashcardRow.study_set_id r <> studySetId) (flashcards s))
                (starred_flashcards s) (serial s) (clock s))).

(** [from('study_sets').delete().eq('id', studySetId)] *)
Definition delete_study_set (studySetId : string) : Task (Response unit) :=
  query (DeleteStudySet studySetId)
    (fun s =>
       (answer_empty,
        mkStore (filter (fun r => StudySetRow.id r <> studySetId) (study_sets s))
                (flashcards s) (starred_flashcards s) (serial s) (clock s))).

(** [from('starred_flashcards').select('*').eq('user_id', userId)
      .eq('flashcard_id', flashcardId).single()] *)
Definition select_starred_single (userId flashcardId : string) : Task (Response Starred.t) :=
  query (SelectStarredSingle userId flashcardId)
    (fun s => (single (stars_of userId flashcardId s), s)).

(** [from('starred_flashcards').delete().eq('user_id', userId)
      .eq('flashcard_id', flashcardId)] *)
Definition delete_starred (userId flashcardId : string) : Task (Response unit) :=
  query (DeleteStarred userId flashcardId)
    (fun s =>
       (answer_empty,
        mkStore (study_sets s) (flashcards s)
                (filter (fun r => ~ is_star userId flashcardId r) (starred_flashcards s))
                (serial s) (clock s))).

(** [from('starred_flashcards').insert({ user_id, flashcard_id })] *)
Definition insert_starred (userId flashcardId : string) : Task (Response unit) :=
  query (InsertStarred userId flashcardId)
    (fun s =>
       (answer_empty,
        mkStore (study_sets s) (flashcards s)
                (starred_flashcards s ++ [Starred.mk userId flashcardId])
                (serial s) (clock s))).

(** ** The data-access module *)

(** [count || 0] *)
Definition or_zero (c : option Z) : Z :=
  match c with
  | Some n => if n =? 0 then 0 else n
  | None => 0
  end.

(** [description || null]: an omitted argument and the empty string are both
    falsy. *)
Definition or_null (description : option string) : option string :=
  match description with
  | Some d => if decide (d = "") then None else Some d
  | None => None
  end.

(** The truthiness of an optional string argument: [Some u] when the argument
    is given and is not the empty string. *)
Definition truthy (userId : option string) : option string :=
  match userId with
  | Some u => if decide (u = "") then None else Some u
  | None => None
  end.

Definition getStudySets (userId : string) : Task (list StudySet.t) :=
  try_catch
    (let! r := select_study_sets userId in
     match error r with
     | Some e => throw e
     | None =>
         promise_all
           (fun set =>
              let! c := count_flashcards (StudySetRow.id set) in
              ret (StudySet.with_flashcard_count set (or_zero (count c))))
           (default [] (data r))
     end)
    (fun e =>
       let! _ := console_error "Error fetching study sets:" e in
       ret []).

Definition getFlashcards (studySetId : string) (userId : option string)
  : Task (list Flashcard.t) :=
  try_catch
    (let! r := select_flashcards studySetId in
     match error r with
     | Some e => throw e
     | None =>
         match truthy userId, data r with
         | Some u, Some cards =>
             let! starredCards := select_starred u in
             let starredIds : gset string :=
               list_to_set (default [] (map Starred.flashcard_id <$> data starredCards)) in
             ret (map (fun card =>
                         Flashcard.with_is_starred card
                           (bool_decide (FlashcardRow.id card ∈ starredIds)))
                      cards)
         | _, _ => ret (map Flashcard.of_row (default [] (data r)))
         end
     end)
    (fun e =>
       let! _ := console_error "Error fetching flashcards:" e in
       ret []).

Definition createStudySet (userId title : string) (description : option string)
  : Task (option StudySet.t) :=
  try_catch
    (let! r := insert_study_set userId title (or_null description) in
     match error r with
     | Some e => throw e
     | None => ret (StudySet.of_row <$> data r)
     end)
    (fun e =>
       let! _ := console_error "Error creating study set:" e in
       ret None).

Definition deleteStudySet (studySetId : string) : Task bool :=
  try_catch
    (let! _ := delete_flashcards studySetId in
     let! r := delete_study_set studySetId in
     match error r with
     | Some e => throw e
     | None => ret true
     end)
    (fun e =>
       let! _ := console_error "Error deleting study set:" e in
       ret false).

Definition toggleStar (userId flashcardId : string) : Task bool :=
  try_catch
    (let! existing := select_starred_single userId flashcardId in
     match data existing with
     | Some _ =>
         let! r := delete_starred userId flashcardId in
         match error r with
         | Some e => throw e
         | None => ret false
         end
     | None =>
         let! r := insert_starred userId flashcardId in
         match error r with
         | Some e => throw e
         | None => ret true
         end
     end)
    (fun e =>
       let! _ := console_error "Error toggling star:" e in
       throw e).

(** Calls of [toggleStar] made one after the other, each awaited before the
    next; like [handleToggleStar], the caller goes on whether a call resolved
    or rejected. *)
Fixpoint toggle_all (calls : list (string * string)) (w : World) : World :=
  match calls with
  | [] => w
  | (u, f) :: rest => toggle_all rest (snd (toggleStar u f w))
  end.

(** *** Worlds and observations used in the statements *)

(** Every request is answered. *)
Definition reliable (w : World) : Prop := forall n r, fails w n r = false.

(** Every existence check of [toggleStar] is answered. *)
Definition checks_answered (w : World) : Prop :=
  forall n u f, fails w n (SelectStarredSingle u f) = false.

(** The starred flag of a pair: a row of the association table is present. *)
Definition starred (u f : string) (s : Store) : bool :=
  bool_decide (stars_of u f s <> []).

(** The flashcard identifiers a user has starred. *)
Definition starred_ids (u : string) (s : Store) : gset string :=
  list_to_set (Starred.flashcard_id <$> starred_of_user u s).

(** The existence check of [toggleStar u f], issued next in [w], hands back a
    row: the request is answered and the pair has exactly one row. *)
Definition check_finds (u f : string) (w : World) : bool :=
  negb (fails w (length (trace w)) (SelectStarredSingle u f))
  && bool_decide (length (stars_of u f (db w)) = 1%nat).

(** The callback that [getStudySets] maps over the selected rows. *)
Definition annotate (set : StudySetRow.t) : Task StudySet.t :=
  let! c := count_flashcards (StudySetRow.id set) in
  ret (StudySet.with_flashcard_count set (or_zero (count c))).

(** The count [annotate] attaches to [set] when its count query is the
    [k]-th request of [w]. *)
Definition counted (w : World) (k : nat) (set : StudySetRow.t) : Z :=
  if fails w k (CountFlashcards (StudySetRow.id set)) then 0
  else Z.of_nat (length (cards_of_set (StudySetRow.id set) (db w))).

(** ** The rest of the data-access module: [getStudySet] *)

Definition sets_with_id (studySetId : string) (s : Store) : list StudySetRow.t :=
  filter (fun r => StudySetRow.id r = studySetId) (study_sets s).

(** [from('study_sets').select('*').eq('id', studySetId).single()] *)
Definition select_study_set (studySetId : string) : Task (Response StudySetRow.t) :=
  query (SelectStudySet studySetId)
    (fun s => (single (sets_with_id studySetId s), s)).

(** The last branch stands for the [TypeError] of reading [studySet.id] on a
    response with neither error nor data; [single] never gives one, and the
    handler treats every thrown value alike. *)
Definition getStudySet (studySetId : string) : Task (option StudySet.t) :=
  try_catch
    (let! r := select_study_set studySetId in
     match error r, data r with
     | Some e, _ => throw e
     | None, Some studySet =>
         let! c := count_flashcards (StudySetRow.id studySet) in
         ret (Some (StudySet.with_flashcard_count studySet (or_zero (count c))))
     | None, None => throw NotSingleRow
     end)
    (fun e =>
       let! _ := console_error "Error fetching study set:" e in
       ret None).

(** ** The study page around the controller *)

Module Page.
Import Session.

(** [array[i]] for a [number] index: the element when [i] is an index of the
    array, [undefined] otherwise. *)
Definition at_index {A} (l : list A) (i : Z) : option A :=
  if i <? 0 then None else l !! Z.to_nat i.

(** What the study view shows. *)
Record Study := mkStudy {
  shown : Flashcard.t;
  cardNumber : Z;
  cardTotal : Z;
  flipped : bool;
  starFilled : bool;
  navDisabled : bool
}.

(** The branches of the component's [return]s, in their order; [RenderError]
    is the [TypeError] of reading a field of an undefined [currentCard]. *)
Inductive View :=
| Loading
| NotFound
| NoFlashcards
| Studying (v : Study)
| RenderError.

Definition render (isLoading : bool) (userId : option string)
    (studySet : option StudySet.t) (flashcards : list Flashcard.t) (s : State) : View :=
  if isLoading || negb (bool_decide (is_Some (truthy userId))) then Loading
  else match studySet with
       | None => NotFound
       | Some _ =>
           if cardCount flashcards =? 0 then NoFlashcards
           else match at_index flashcards (currentCardIndex s) with
                | None => RenderError
                | Some currentCard =>
                    Studying
                      (mkStudy currentCard (currentCardIndex s + 1) (cardCount flashcards)
                         (isFlipped s)
                         (bool_decide (Flashcard.is_starred currentCard = Some true))
                         (cardCount flashcards <=? 1))
                end
       end.

(** [handleToggleStar]: the guard, then [starMutation.mutateAsync], whose
    [mutationFn] is [toggleStar] and whose [onSuccess] invalidates the
    flashcards query; the result tells whether the query was invalidated. *)
Definition handleToggleStar (userId : option string) (currentCard : option Flashcard.t)
  : Task bool :=
  match truthy userId, currentCard with
  | Some u, Some card =>
      try_catch
        (let! _ := toggleStar u (Flashcard.id card) in
         ret true)
        (fun e =>
           let! _ := console_error "Error toggling star:" e in
           ret false)
  | _, _ => ret false
  end.

(** *** The keyboard shortcuts

    The [keydown] listener is installed by an effect whose dependencies are
    [[currentCardIndex, isFlipped]]: the listener in place is the closure of
    the last render at which one of the two changed (or of the first render),
    with the [flashcards] and the [isFlipped] of that render. *)

Record Closure := mkClosure {
  seen_flashcards : list Flashcard.t;
  seen_isFlipped : bool
}.

Record t := mkPage {
  flashcards : list Flashcard.t;
  state : State;
  listener : Closure
}.

(** The first render: the query has no data yet, [flashcards = []]. *)
Definition mounted : t := mkPage [] initial (mkClosure [] false).

(** [handleKeyDown] of a closure: [handleFlipCard] sets [!isFlipped] of its
    render, the two others update the index with the [flashcards] of its
    render. *)
Definition handleKeyDown (c : Closure) (key : string) (s : State) : State :=
  if bool_decide (key = " ") || bool_decide (key = "Enter")
  then mkState (currentCardIndex s) (negb (seen_isFlipped c))
  else if bool_decide (key = "ArrowLeft") then handlePrevCard (seen_flashcards c) s
  else if bool_decide (key = "ArrowRight") then handleNextCard (seen_flashcards c) s
  else s.

Inductive Event :=
| Loaded (cards : list Flashcard.t)
| Click (o : Op)
| Key (key : string).

(** The card is there to click when a card is shown; the two buttons are
    disabled on a list of one card. *)
Definition clickable (cards : list Flashcard.t) (o : Op) : bool :=
  match o with
  | Flip => negb (cardCount cards =? 0)
  | Next | Previous => negb (cardCount cards <=? 1)
  end.

(** After the render that follows an update, the effect runs again when a
    dependency changed. *)
Definition commit (p : t) (s' : State) : t :=
  mkPage (flashcards p) s'
    (if bool_decide (currentCardIndex s' = currentCardIndex (state p))
        && bool_decide (isFlipped s' = isFlipped (state p))
     then listener p
     else mkClosure (flashcards p) (isFlipped s')).

Definition on_event (p : t) (e : Event) : t :=
  match e with
  | Loaded cards => mkPage cards (state p) (listener p)
  | Click o =>
      if clickable (flashcards p) o
      then commit p (Session.step (flashcards p) (state p) o)
      else p
  | Key key => commit p (handleKeyDown (listener p) key (state p))
  end.

Definition play (events : list Event) (p : t) : t := foldl on_event p events.

End Page.

(** ** The dashboard page *)

Module Dashboard.

(** One card of the grid: what it links to and what it prints. *)
Record Tile := mkTile {
  target : string;
  heading : string;
  blurb : option string;
  cards : Z;
  noun : string
}.

Inductive View :=
| Loading
| ErrorView
| NoSets
| Grid (total : Z) (unit : string) (tiles : list Tile).

(** [{set.flashcard_count || 0} {set.flashcard_count === 1 ? 'card' : 'cards'}],
    the description printed when it is truthy, the click leading to the set. *)
Definition tile (set : StudySet.t) : Tile :=
  mkTile (StudySet.id set) (StudySet.title set) (truthy (StudySet.description set))
    (or_zero (StudySet.flashcard_count set))
    (if bool_decide (StudySet.flashcard_count set = Some 1) then "card" else "cards").

(** [useQuery({ queryFn, enabled })] once the query function has settled:
    [data] is what it resolved to, [error] what it rejected with. *)
Definition settled {A} (o : Outcome A) : option A * option StoreError :=
  match o with
  | Resolved a => (Some a, None)
  | Rejected e => (None, Some e)
  end.

(** The branches of the component's [return]s, in their order, with
    [data: studySets = []]. *)
Definition render (isLoading : bool) (userId : option string)
    (query : option (list StudySet.t) * option StoreError) : View :=
  let studySets := default [] (fst query) in
  if isLoading || negb (bool_decide (is_Some (truthy userId))) then Loading
  else match snd query with
       | Some _ => ErrorView
       | None =>
           if Z.of_nat (length studySets) =? 0 then NoSets
           else Grid (Z.of_nat (length studySets))
                  (if Z.of_nat (length studySets) =? 1 then "set" else "sets")
                  (map tile studySets)
       end.

End Dashboard.

(** *** Observations on runs of the controller *)

(** The places an operation moves the index: one forward for next, one back
    for previous, none for flip. *)
Definition move (o : Session.Op) : Z :=
  match o with
  | Session.Next => 1
  | Session.Previous => -1
  | Session.Flip => 0
  end.

Definition net_moves (ops : list Session.Op) : Z :=
  foldr (fun o n => move o + n) 0 ops.

(** ** Sample data *)

Module Demo.

Definition four_cards : list Flashcard.t :=
  map (fun n => Flashcard.mk (pretty n) "set" "term" "definition" (Z.of_nat n) 0 None)
      [0%nat; 1%nat; 2%nat; 3%nat].

(** Two sets of ann (the second updated last), one of bob; three cards in
    ann's first set, stored out of order; ann has starred one of them. *)
Definition store : Store :=
  mkStore
    [StudySetRow.mk "s1" "ann" "Verbs" None 1 5;
     StudySetRow.mk "s2" "ann" "Nouns" (Some "a first try") 2 9;
     StudySetRow.mk "s3" "bob" "Maths" None 3 7]
    [FlashcardRow.mk "c1" "s1" "aller" "to go" 2 1;
     FlashcardRow.mk "c2" "s1" "etre" "to be" 0 1;
     FlashcardRow.mk "c3" "s1" "avoir" "to have" 1 1;
     FlashcardRow.mk "c4" "s2" "chat" "cat" 0 2]
    [Starred.mk "ann" "c2"]
    4%N 10.

Definition never_fails : nat -> Request -> bool := fun _ _ => false.

(** Only the [k]-th request fails. *)
Definition fails_at (k : nat) : nat -> Request -> bool := fun n _ => Nat.eqb n k.

Definition calm : World := mkWorld store never_fails [] [].

Definition flaky (k : nat) : World := mkWorld store (fails_at k) [] [].

End Demo.

(** * Properties of the study-session controller *)

Module SessionProps.
Import Session Demo.

Section Navigation.
Variable flashcards : list Flashcard.t.
Let L := cardCount flashcards.

Lemma cardCount_pos : flashcards <> [] -> 0 < L.
Proof.
  subst L. unfold cardCount. destruct flashcards; [congruence | simpl length; lia].
Qed.

Lemma cardCount_nil : flashcards = [] -> L = 0.
Proof. intros ->. reflexivity. Qed.

Lemma next_index (s : State) :
  0 < L -> 0 <= currentCardIndex s ->
  handleNextCard flashcards s = mkState ((currentCardIndex s + 1) mod L) false.
Proof.
  intros HL Hs. unfold handleNextCard. fold L.
  destruct (Z.eqb_spec L 0) as [E | _]; [lia |].
  rewrite Z.rem_mod_nonneg by lia. reflexivity.
Qed.

Lemma prev_index (s : State) :
  0 < L -> 0 <= currentCardIndex s ->
  handlePrevCard flashcards s = mkState ((currentCardIndex s - 1 + L) mod L) false.
Proof.
  intros HL Hs. unfold handlePrevCard. fold L.
  destruct (Z.eqb_spec L 0) as [E | _]; [lia |].
  rewrite Z.rem_mod_nonneg by lia. reflexivity.
Qed.

Lemma next_empty (s : State) : L = 0 -> handleNextCard flashcards s = s.
Proof. intros E. unfold handleNextCard. fold L. rewrite E. reflexivity. Qed.

Lemma prev_empty (s : State) : L = 0 -> handlePrevCard flashcards s = s.
Proof. intros E. unfold handlePrevCard. fold L. rewrite E. reflexivity. Qed.

(** [k] presses of next move the index [k] places round the cycle. *)
Lemma iter_next_index (k : nat) (s : State) :
  0 < L -> 0 <= currentCardIndex s < L ->
  currentCardIndex (Nat.iter k (handleNextCard flashcards) s)
  = (currentCardIndex s + Z.of_nat k) mod L.
Proof.
  intros HL Hs. induction k as [| k IH].
  - cbn [Nat.iter nat_rect Z.of_nat]. rewrite Z.add_0_r, Z.mod_small; [reflexivity | exact Hs].
  - rewrite Nat.iter_succ, next_index; [| lia |].
    + cbn [currentCardIndex]. rewrite IH, Zplus_mod_idemp_l.
      f_equal. lia.
    + rewrite IH. apply Z.mod_pos_bound. lia.
Qed.

Lemma step_in_range (s : State) (o : Op) :
  0 < L -> 0 <= currentCardIndex s < L ->
  0 <= currentCardIndex (step flashcards s o) < L.
Proof.
  intros HL Hs. destruct o; simpl.
  - exact Hs.
  - rewrite next_index by lia. apply Z.mod_pos_bound. lia.
  - rewrite prev_index by lia. apply Z.mod_pos_bound. lia.
Qed.

Lemma run_in_range (ops : list Op) (s : State) :
  0 < L -> 0 <= currentCardIndex s < L ->
  0 <= currentCardIndex (run flashcards ops s) < L.
Proof.
  intros HL. revert s. induction ops as [| o ops IH]; intros s Hs.
  - exact Hs.
  - apply IH. apply step_in_range; assumption.
Qed.

Lemma run_empty_index (ops : list Op) (s : State) :
  L = 0 -> currentCardIndex (run flashcards ops s) = currentCardIndex s.
Proof.
  intros E. revert s. induction ops as [| o ops IH]; intros s.
  - reflexivity.
  - unfold run in *. simpl. rewrite IH.
    destruct o; simpl; [reflexivity | |].
    + rewrite next_empty by exact E. reflexivity.
    + rewrite prev_empty by exact E. reflexivity.
Qed.

End Navigation.

(** C1. On a list of [L >= 1] flashcards and from an index in [[0, L)],
    [L] calls of next bring [currentCardIndex] back to where it started;
    previous undoes next and next undoes previous on the index, and both
    leave [isFlipped] false. *)
Theorem next_cycles_and_prev_inverts (flashcards : list Flashcard.t) (s : State) :
  (1 <= length flashcards)%nat ->
  0 <= currentCardIndex s < cardCount flashcards ->
  currentCardIndex (Nat.iter (length flashcards) (handleNextCard flashcards) s)
    = currentCardIndex s
  /\ handlePrevCard flashcards (handleNextCard flashcards s)
     = mkState (currentCardIndex s) false
  /\ handleNextCard flashcards (handlePrevCard flashcards s)
     = mkState (currentCardIndex s) false
  /\ isFlipped (handleNextCard flashcards s) = false
  /\ isFlipped (handlePrevCard flashcards s) = false.
Proof.
  intros Hlen Hs.
  assert (HL : 0 < cardCount flashcards) by (unfold cardCount; lia).
  assert (Hlen' : Z.of_nat (length flashcards) = 1 * cardCount flashcards)
    by (unfold cardCount; lia).
  rewrite iter_next_index by lia.
  rewrite (next_index flashcards s), (prev_index flashcards s) by lia.
  rewrite (prev_index flashcards (mkState _ _)), (next_index flashcards (mkState _ _))
    by (first [exact HL | exact (proj1 (Z.mod_pos_bound _ _ HL))]).
  cbn [currentCardIndex isFlipped].
  generalize dependent (cardCount flashcards). intros L Hs HL Hlen'.
  generalize dependent (currentCardIndex s). intros i Hs.
  repeat split.
  - rewrite Hlen', Z.mod_add, Z.mod_small; lia.
  - f_equal.
    replace ((i + 1) mod L - 1 + L) with ((i + 1) mod L + (L - 1)) by lia.
    rewrite Zplus_mod_idemp_l.
    replace (i + 1 + (L - 1)) with (i + 1 * L) by lia.
    rewrite Z.mod_add, Z.mod_small; lia.
  - f_equal. rewrite Zplus_mod_idemp_l.
    replace (i - 1 + L + 1) with (i + 1 * L) by lia.
    rewrite Z.mod_add, Z.mod_small; lia.
Qed.

Lemma next_cycles_and_prev_inverts_witness :
  currentCardIndex (Nat.iter 4 (handleNextCard four_cards) (mkState 3 true)) = 3
  /\ handlePrevCard four_cards (handleNextCard four_cards (mkState 3 true)) = mkState 3 false
  /\ handleNextCard four_cards (handlePrevCard four_cards (mkState 3 true)) = mkState 3 false
  /\ isFlipped (handleNextCard four_cards (mkState 3 true)) = false
  /\ isFlipped (handlePrevCard four_cards (mkState 3 true)) = false.
Proof.
  apply (next_cycles_and_prev_inverts four_cards (mkState 3 true)).
  - simpl. lia.
  - vm_compute. split; congruence.
Defined.

(** The scenario of the specification: on four cards previous wraps from 0 to
    3 and next wraps from 3 to 0. *)
Example wrap_on_four_cards :
  currentCardIndex (handlePrevCard four_cards (mkState 0 false)) = 3
  /\ currentCardIndex (handleNextCard four_cards (mkState 3 false)) = 0.
Proof. split; reflexivity. Qed.

(** C7, as the code has it. A double flip restores [isFlipped] and a flip
    never touches the index. Next and previous leave [isFlipped] false
    whatever it was whenever there is a card; with no card they return before
    the reset and leave the whole state, a raised [isFlipped] included, as it
    was. *)
Theorem flip_twice_and_navigation_reset (flashcards : list Flashcard.t) (s : State) :
  handleFlipCard (handleFlipCard s) = s
  /\ currentCardIndex (handleFlipCard s) = currentCardIndex s
  /\ isFlipped (handleFlipCard s) = negb (isFlipped s)
  /\ (flashcards <> [] ->
      isFlipped (handleNextCard flashcards s) = false
      /\ isFlipped (handlePrevCard flashcards s) = false)
  /\ (flashcards = [] ->
      handleNextCard flashcards s = s /\ handlePrevCard flashcards s = s).
Proof.
  repeat split.
  - destruct s as [i b]. unfold handleFlipCard. simpl. rewrite negb_involutive. reflexivity.
  - unfold handleNextCard. pose proof (cardCount_pos flashcards H).
    destruct (Z.eqb_spec (cardCount flashcards) 0); [lia | reflexivity].
  - unfold handlePrevCard. pose proof (cardCount_pos flashcards H).
    destruct (Z.eqb_spec (cardCount flashcards) 0); [lia | reflexivity].
  - apply next_empty, cardCount_nil, H.
  - apply prev_empty, cardCount_nil, H.
Qed.

Lemma flip_twice_and_navigation_reset_witness :
  isFlipped (handleNextCard four_cards (mkState 2 true)) = false
  /\ isFlipped (handlePrevCard four_cards (mkState 2 true)) = false.
Proof.
  destruct (flip_twice_and_navigation_reset four_cards (mkState 2 true))
    as (_ & _ & _ & Hnav & _).
  apply Hnav. discriminate.
Defined.

(** C7 as stated fails on an empty list: flipped by a key press, the state
    stays flipped through next and through previous. *)
Lemma navigation_keeps_flip_without_cards :
  isFlipped (handleNextCard [] (handleFlipCard initial)) <> false
  /\ isFlipped (handlePrevCard [] (handleFlipCard initial)) <> false.
Proof. split; vm_compute; congruence. Qed.

(** C8, as the code has it. From index 0 and for a fixed list of cards, every
    run of flip, next and previous keeps [currentCardIndex] in
    [[0, cardCount)] when there is a card, and at 0 when there is none (next
    and previous are then no-ops); with a card, next and previous move the
    reached index by one modulo [cardCount]. *)
Theorem index_stays_in_range
  (flashcards : list Flashcard.t) (ops : list Op) (s : State) :
  currentCardIndex s = 0 ->
  let n := cardCount flashcards in
  let s' := run flashcards ops s in
  (n <> 0 ->
     0 <= currentCardIndex s' < n
     /\ currentCardIndex (handleNextCard flashcards s') = (currentCardIndex s' + 1) mod n
     /\ currentCardIndex (handlePrevCard flashcards s')
        = (currentCardIndex s' - 1 + n) mod n)
  /\ (n = 0 ->
     currentCardIndex s' = 0
     /\ handleNextCard flashcards s' = s'
     /\ handlePrevCard flashcards s' = s').
Proof.
  intros Hs n s'. split.
  - intros Hn.
    assert (HL : 0 < n) by (subst n; unfold cardCount in *; lia).
    assert (Hr : 0 <= currentCardIndex s' < n)
      by (apply run_in_range; [exact HL | rewrite Hs; lia]).
    split; [exact Hr |].
    rewrite next_index, prev_index by (fold n; lia). split; reflexivity.
  - intros Hn. split; [| split].
    + subst s'. rewrite run_empty_index by exact Hn. exact Hs.
    + apply next_empty, Hn.
    + apply prev_empty, Hn.
Qed.

Lemma index_stays_in_range_witness :
  let s' := run four_cards [Previous; Flip; Next; Next; Previous; Previous] initial in
  (cardCount four_cards <> 0 ->
     0 <= currentCardIndex s' < cardCount four_cards
     /\ currentCardIndex (handleNextCard four_cards s')
        = (currentCardIndex s' + 1) mod cardCount four_cards
     /\ currentCardIndex (handlePrevCard four_cards s')
        = (currentCardIndex s' - 1 + cardCount four_cards) mod cardCount four_cards)
  /\ (cardCount four_cards = 0 ->
     currentCardIndex s' = 0
     /\ handleNextCard four_cards s' = s'
     /\ handlePrevCard four_cards s' = s').
Proof.
  apply (index_stays_in_range four_cards
           [Previous; Flip; Next; Next; Previous; Previous] initial).
  reflexivity.
Defined.

(** C8 as stated fails for a card count of zero: the index is 0 and the range
    [[0, 0)] is empty. *)
Lemma index_out_of_range_without_cards :
  ~ (0 <= currentCardIndex (run [] [Next; Previous; Flip] initial) < cardCount []).
Proof. vm_compute. intros [_ H]. discriminate H. Qed.

End SessionProps.

(** * Properties of the data-access module *)

Module DataAccessProps.
Import Demo.

(** ** Running the functions: one equation per function *)

Lemma query_run {A} (r : Request) (answer : Store -> Response A * Store) (w : World) :
  query r answer w =
  let ok := negb (fails w (length (trace w)) r) in
  (Resolved (if ok then fst (answer (db w)) else answer_error RequestFailed),
   mkWorld (if ok then snd (answer (db w)) else db w) (fails w)
           (trace w ++ [(r, ok)]) (console w)).
Proof.
  unfold query. cbv zeta. destruct (negb _); [destruct (answer (db w)) |]; reflexivity.
Qed.

Ltac run_query :=
  rewrite query_run; cbv zeta;
  cbn [fst snd db fails trace console data error count
       answer_data answer_count answer_empty answer_error].

Lemma single_data {A} (rows : list A) :
  data (single rows) = match rows with [r] => Some r | _ => None end.
Proof. destruct rows as [| r [| r' l]]; reflexivity. Qed.

Lemma toggleStar_run (u f : string) (w : World) :
  toggleStar u f w =
  let n := length (trace w) in
  let checked := negb (fails w n (SelectStarredSingle u f)) in
  let found := check_finds u f w in
  let mutation := if found then DeleteStarred u f else InsertStarred u f in
  let ok := negb (fails w (S n) mutation) in
  let t := trace w ++ [(SelectStarredSingle u f, checked); (mutation, ok)] in
  if ok then
    (Resolved (negb found),
     mkWorld
       (mkStore (study_sets (db w)) (flashcards (db w))
          (if found
           then filter (fun r => ~ is_star u f r) (starred_flashcards (db w))
           else starred_flashcards (db w) ++ [Starred.mk u f])
          (serial (db w)) (clock (db w)))
       (fails w) t (console w))
  else
    (Rejected RequestFailed,
     mkWorld (db w) (fails w) t
       (console w ++ [("Error toggling star:"%string, RequestFailed)])).
Proof.
  cbv zeta. unfold check_finds, toggleStar, try_catch, bind, console_error, throw, ret,
    select_starred_single, delete_starred, insert_starred.
  run_query.
  destruct (fails w (length (trace w)) (SelectStarredSingle u f)) eqn:Hc;
    cbn [negb andb data answer_error].
  - run_query. rewrite length_app, Nat.add_1_r. cbn [length].
    destruct (fails w (S _) _); cbn; rewrite <- ?app_assoc; reflexivity.
  - rewrite single_data.
    destruct (stars_of u f (db w)) as [| r [| r' l]]; cbn [length bool_decide];
      run_query; rewrite length_app, Nat.add_1_r; cbn [length].
    all: try (destruct (fails w (S _) _); cbn; rewrite <- ?app_assoc; reflexivity).
Qed.

Lemma stars_after_delete (u f u' f' : string) (l : list Starred.t) :
  filter (is_star u f) (filter (fun r => ~ is_star u' f' r) l)
  = if decide (u = u' /\ f = f') then [] else filter (is_star u f) l.
Proof.
  induction l as [| r l IH]; [destruct (decide _); reflexivity |].
  rewrite (filter_cons (fun r => ~ is_star u' f' r)), (filter_cons (is_star u f) r l).
  destruct (decide (~ is_star u' f' r)) as [Hn | Hn];
    [rewrite filter_cons | apply dec_stable in Hn]; rewrite IH; unfold is_star in *;
    repeat case_decide; try reflexivity; exfalso;
    destruct_and?; subst; intuition congruence.
Qed.

Lemma stars_after_insert (u f u' f' : string) (l : list Starred.t) :
  filter (is_star u f) (l ++ [Starred.mk u' f'])
  = filter (is_star u f) l ++ (if decide (u = u' /\ f = f') then [Starred.mk u' f'] else []).
Proof.
  rewrite filter_app. f_equal. rewrite filter_cons, filter_nil.
  unfold is_star. cbn. repeat case_decide; try reflexivity; exfalso;
    destruct_and?; subst; intuition congruence.
Qed.

(** What one call leaves in the association table for a pair [(u, f)]. *)
Lemma stars_after_toggle (u f u' f' : string) (w : World) :
  stars_of u f (db (snd (toggleStar u' f' w))) =
  if negb (fails w (S (length (trace w)))
             (if check_finds u' f' w then DeleteStarred u' f' else InsertStarred u' f'))
  then
    if check_finds u' f' w
    then (if decide (u = u' /\ f = f') then [] else stars_of u f (db w))
    else stars_of u f (db w)
         ++ (if decide (u = u' /\ f = f') then [Starred.mk u' f'] else [])
  else stars_of u f (db w).
Proof.
  rewrite toggleStar_run. cbv zeta.
  destruct (negb (fails w _ _)); cbn [snd db]; [| reflexivity].
  unfold stars_of. cbn [starred_flashcards].
  destruct (check_finds u' f' w).
  - apply stars_after_delete.
  - apply stars_after_insert.
Qed.

Lemma fails_after_toggle (u f : string) (w : World) :
  fails (snd (toggleStar u f w)) = fails w.
Proof. rewrite toggleStar_run. cbv zeta. destruct (negb _); reflexivity. Qed.

Lemma check_finds_one (u f : string) (w : World) :
  check_finds u f w = true -> length (stars_of u f (db w)) = 1%nat.
Proof.
  unfold check_finds. intros H. apply andb_prop in H as [_ H].
  apply bool_decide_eq_true in H. exact H.
Qed.

Lemma check_finds_answered (u f : string) (w : World) :
  fails w (length (trace w)) (SelectStarredSingle u f) = false ->
  check_finds u f w = bool_decide (length (stars_of u f (db w)) = 1%nat).
Proof. intros H. unfold check_finds. rewrite H. reflexivity. Qed.

(** One call keeps the pair [(u, f)] at one row at most, as long as the
    existence check of the call is answered. *)
Lemma toggle_keeps_unique (u f u' f' : string) (w : World) :
  fails w (length (trace w)) (SelectStarredSingle u' f') = false ->
  (length (stars_of u f (db w)) <= 1)%nat ->
  (length (stars_of u f (db (snd (toggleStar u' f' w)))) <= 1)%nat.
Proof.
  intros Hc Hle. rewrite stars_after_toggle.
  destruct (negb (fails w _ _)); [| exact Hle].
  rewrite (check_finds_answered _ _ _ Hc).
  case_bool_decide as H1.
  - case_decide; [simpl; lia | exact Hle].
  - case_decide as Heq; [| rewrite app_nil_r; exact Hle].
    destruct Heq as [-> ->]. rewrite length_app. simpl. lia.
Qed.

Lemma toggle_all_keeps_unique (u f : string) (calls : list (string * string)) (w : World) :
  checks_answered w ->
  (length (stars_of u f (db w)) <= 1)%nat ->
  (length (stars_of u f (db (toggle_all calls w))) <= 1)%nat.
Proof.
  revert w. induction calls as [| [u' f'] calls IH]; intros w Hc Hle; [exact Hle |].
  cbn [toggle_all]. apply IH.
  - intros n a b. rewrite fails_after_toggle. apply Hc.
  - apply toggle_keeps_unique; [apply Hc | exact Hle].
Qed.

Lemma starred_length (u f : string) (s : Store) :
  (length (stars_of u f s) <= 1)%nat ->
  starred u f s = bool_decide (length (stars_of u f s) = 1%nat).
Proof.
  unfold starred. intros H. destruct (stars_of u f s) as [| r [| r' l]]; simpl in *;
    [reflexivity | reflexivity | lia].
Qed.

(** A fully answered call on a pair with at most one row: the result and the
    rows left. *)
Lemma toggle_reliable (u f : string) (w : World) :
  reliable w ->
  (length (stars_of u f (db w)) <= 1)%nat ->
  fst (toggleStar u f w) = Resolved (negb (starred u f (db w)))
  /\ starred u f (db (snd (toggleStar u f w))) = negb (starred u f (db w))
  /\ (length (stars_of u f (db (snd (toggleStar u f w)))) <= 1)%nat
  /\ reliable (snd (toggleStar u f w)).
Proof.
  intros Hr Hle.
  assert (Hf : check_finds u f w = starred u f (db w)).
  { rewrite check_finds_answered by apply Hr. symmetry. apply starred_length, Hle. }
  split; [| split; [| split]].
  - rewrite toggleStar_run. cbv zeta. rewrite Hr, Hf. reflexivity.
  - unfold starred at 1. rewrite stars_after_toggle, Hr, Hf. cbn [negb].
    destruct (starred u f (db w)) eqn:Hs.
    + rewrite decide_True by (split; reflexivity). reflexivity.
    + rewrite decide_True by (split; reflexivity).
      apply bool_decide_eq_true. intros E. apply app_eq_nil in E as [_ E]. discriminate E.
  - apply toggle_keeps_unique; [apply Hr | exact Hle].
  - intros n r. rewrite fails_after_toggle. apply Hr.
Qed.

#[local] Instance newest_first_total : Total newest_first.
Proof. intros a b. unfold newest_first. lia. Qed.

#[local] Instance by_position_total : Total by_position.
Proof. intros a b. unfold by_position. lia. Qed.

Lemma or_zero_Some (n : Z) : or_zero (Some n) = n.
Proof. unfold or_zero. destruct (Z.eqb_spec n 0); congruence. Qed.

Lemma annotate_run (set : StudySetRow.t) (w : World) :
  annotate set w =
  (Resolved (StudySet.with_flashcard_count set (counted w (length (trace w)) set)),
   mkWorld (db w) (fails w)
     (trace w ++ [(CountFlashcards (StudySetRow.id set),
                   negb (fails w (length (trace w)) (CountFlashcards (StudySetRow.id set))))])
     (console w)).
Proof.
  unfold annotate, bind, ret, count_flashcards, counted. run_query.
  destruct (fails w _ _); cbn -[or_zero]; rewrite ?or_zero_Some; reflexivity.
Qed.

Lemma promise_all_annotate (rows : list StudySetRow.t) (w : World) :
  promise_all annotate rows w =
  (Resolved (imap (fun i set =>
               StudySet.with_flashcard_count set (counted w (length (trace w) + i) set)) rows),
   mkWorld (db w) (fails w)
     (trace w ++ imap (fun i set =>
        (CountFlashcards (StudySetRow.id set),
         negb (fails w (length (trace w) + i) (CountFlashcards (StudySetRow.id set))))) rows)
     (console w)).
Proof.
  revert w. induction rows as [| set rows IH]; intros w.
  - cbn. rewrite app_nil_r. destruct w; reflexivity.
  - cbn [promise_all]. unfold bind at 1. rewrite annotate_run.
    unfold bind at 1. rewrite IH. cbn [db fails trace console ret].
    rewrite !imap_cons, !Nat.add_0_r, <- app_assoc. cbn [app].
    rewrite length_app. cbn [length].
    assert (E : forall (B : Type) (g : nat -> StudySetRow.t -> B) (h : nat -> StudySetRow.t -> B),
              (forall i x, g i x = h (S i) x) -> imap g rows = imap (h ∘ S) rows).
    { intros B g h Hgh. apply imap_ext. intros i x _. cbn. apply Hgh. }
    rewrite (E _ _ (fun i set =>
               StudySet.with_flashcard_count set (counted w (length (trace w) + i) set))),
            (E _ _ (fun i set =>
               (CountFlashcards (StudySetRow.id set),
                negb (fails w (length (trace w) + i) (CountFlashcards (StudySetRow.id set))))));
      [reflexivity | |];
      intros i x; unfold counted; cbn [db fails];
      replace (length (trace w) + 1 + i)%nat with (length (trace w) + S i)%nat by lia;
      reflexivity.
Qed.

Lemma getStudySets_run (userId : string) (w : World) :
  getStudySets userId w =
  let n := length (trace w) in
  if fails w n (SelectStudySets userId) then
    (Resolved [],
     mkWorld (db w) (fails w) (trace w ++ [(SelectStudySets userId, false)])
       (console w ++ [("Error fetching study sets:"%string, RequestFailed)]))
  else
    let rows := merge_sort newest_first (sets_of_user userId (db w)) in
    (Resolved (imap (fun i set =>
                 StudySet.with_flashcard_count set (counted w (S n + i) set)) rows),
     mkWorld (db w) (fails w)
       (trace w ++ (SelectStudySets userId, true)
          :: imap (fun i set =>
               (CountFlashcards (StudySetRow.id set),
                negb (fails w (S n + i) (CountFlashcards (StudySetRow.id set))))) rows)
       (console w)).
Proof.
  cbv zeta. unfold getStudySets, try_catch, select_study_sets.
  unfold bind at 1. run_query.
  destruct (fails w (length (trace w)) (SelectStudySets userId));
    cbn [negb error data answer_data answer_error default throw console_error bind ret
         db fails trace console].
  - reflexivity.
  - fold annotate. rewrite promise_all_annotate. cbn [db fails trace console].
    rewrite length_app, Nat.add_1_r, <- app_assoc. cbn [length app]. reflexivity.
Qed.
Lemma sorted_sets (userId : string) (s : Store) :
  Sorted newest_first (merge_sort newest_first (sets_of_user userId s))
  /\ merge_sort newest_first (sets_of_user userId s) ≡ₚ sets_of_user userId s.
Proof. split; [apply Sorted_merge_sort, _ | apply merge_sort_Permutation]. Qed.

Lemma sorted_cards (studySetId : string) (s : Store) :
  Sorted by_position (merge_sort by_position (cards_of_set studySetId s))
  /\ merge_sort by_position (cards_of_set studySetId s) ≡ₚ cards_of_set studySetId s.
Proof. split; [apply Sorted_merge_sort, _ | apply merge_sort_Permutation]. Qed.

Lemma getFlashcards_run (studySetId : string) (userId : option string) (w : World) :
  getFlashcards studySetId userId w =
  let n := length (trace w) in
  if fails w n (SelectFlashcards studySetId) then
    (Resolved [],
     mkWorld (db w) (fails w) (trace w ++ [(SelectFlashcards studySetId, false)])
       (console w ++ [("Error fetching flashcards:"%string, RequestFailed)]))
  else
    let rows := merge_sort by_position (cards_of_set studySetId (db w)) in
    match truthy userId with
    | Some u =>
        let ok := negb (fails w (S n) (SelectStarred u)) in
        let starredIds : gset string := if ok then starred_ids u (db w) else ∅ in
        (Resolved (map (fun card =>
                     Flashcard.with_is_starred card
                       (bool_decide (FlashcardRow.id card ∈ starredIds))) rows),
         mkWorld (db w) (fails w)
           (trace w ++ [(SelectFlashcards studySetId, true); (SelectStarred u, ok)])
           (console w))
    | None =>
        (Resolved (map Flashcard.of_row rows),
         mkWorld (db w) (fails w) (trace w ++ [(SelectFlashcards studySetId, true)])
           (console w))
    end.
Proof.
  cbv zeta. unfold getFlashcards, try_catch, select_flashcards, select_starred.
  unfold bind at 1. run_query.
  destruct (fails w (length (trace w)) (SelectFlashcards studySetId));
    cbn [negb error data answer_data answer_error default throw console_error bind ret
         db fails trace console].
  - reflexivity.
  - destruct (truthy userId) as [u |]; [| reflexivity].
    unfold bind, ret. run_query. rewrite length_app, Nat.add_1_r, <- app_assoc.
    cbn [length app]. unfold starred_ids.
    destruct (fails w (S _) _); reflexivity.
Qed.

Lemma elem_of_starred_ids (u f : string) (s : Store) :
  f ∈ starred_ids u s <-> stars_of u f s <> [].
Proof.
  unfold starred_ids, starred_of_user, stars_of.
  rewrite elem_of_list_to_set, list_elem_of_fmap. split.
  - intros (r & -> & Hr). apply list_elem_of_filter in Hr as [Hu Hr].
    intros E.
    assert (Hin : r ∈ filter (is_star u (Starred.flashcard_id r)) (starred_flashcards s))
      by (apply list_elem_of_filter; split; [split; [exact Hu | reflexivity] | exact Hr]).
    rewrite E in Hin. inversion Hin.
  - intros Hne. destruct (filter (is_star u f) (starred_flashcards s)) as [| r l] eqn:E;
      [congruence |].
    assert (Hr : r ∈ filter (is_star u f) (starred_flashcards s)) by (rewrite E; left).
    apply list_elem_of_filter in Hr as [[Hu Hf] Hr].
    exists r. split; [symmetry; exact Hf |]. apply list_elem_of_filter. auto.
Qed.

Lemma starred_ids_flag (u f : string) (s : Store) :
  bool_decide (f ∈ starred_ids u s) = starred u f s.
Proof. unfold starred. apply bool_decide_ext, elem_of_starred_ids. Qed.

Lemma createStudySet_run (userId title : string) (description : option string) (w : World) :
  createStudySet userId title description w =
  let n := length (trace w) in
  let req := InsertStudySet userId title (or_null description) in
  if fails w n req then
    (Resolved None,
     mkWorld (db w) (fails w) (trace w ++ [(req, false)])
       (console w ++ [("Error creating study set:"%string, RequestFailed)]))
  else
    let row := StudySetRow.mk (pretty (serial (db w))) userId title (or_null description)
                 (clock (db w)) (clock (db w)) in
    (Resolved (Some (StudySet.of_row row)),
     mkWorld
       (mkStore (study_sets (db w) ++ [row]) (flashcards (db w))
          (starred_flashcards (db w)) (N.succ (serial (db w))) (clock (db w) + 1))
       (fails w) (trace w ++ [(req, true)]) (console w)).
Proof.
  cbv zeta. unfold createStudySet, try_catch, insert_study_set.
  unfold bind at 1. run_query.
  destruct (fails w (length (trace w)) _); reflexivity.
Qed.

Lemma or_null_not_empty (description : option string) :
  or_null description <> Some ""%string.
Proof.
  unfold or_null. destruct description as [d |]; [| discriminate].
  destruct (decide (d = ""%string)); congruence.
Qed.

Lemma deleteStudySet_run (studySetId : string) (w : World) :
  deleteStudySet studySetId w =
  let n := length (trace w) in
  let ok1 := negb (fails w n (DeleteFlashcards studySetId)) in
  let ok2 := negb (fails w (S n) (DeleteStudySet studySetId)) in
  let cards :=
    if ok1
    then filter (fun r => FlashcardRow.study_set_id r <> studySetId) (flashcards (db w))
    else flashcards (db w) in
  let sets :=
    if ok2
    then filter (fun r => StudySetRow.id r <> studySetId) (study_sets (db w))
    else study_sets (db w) in
  (Resolved ok2,
   mkWorld
     (mkStore sets cards (starred_flashcards (db w)) (serial (db w)) (clock (db w)))
     (fails w)
     (trace w ++ [(DeleteFlashcards studySetId, ok1); (DeleteStudySet studySetId, ok2)])
     (console w
      ++ (if ok2 then [] else [("Error deleting study set:"%string, RequestFailed)]))).
Proof.
  cbv zeta. unfold deleteStudySet, try_catch, bind, delete_flashcards, delete_study_set.
  run_query. run_query. rewrite length_app, Nat.add_1_r. cbn [length].
  destruct (db w) as [sets cards stars k t].
  destruct (fails w (length (trace w)) _), (fails w (S _) _); cbn;
    rewrite <- ?app_assoc, ?app_nil_r; reflexivity.
Qed.

(** ** The claims *)

(** C2, as the code has it. On a store that holds at most one association row
    for the pair [(u, f)]: as long as every existence check is answered, any
    sequence of [toggleStar] calls (on any pairs) leaves at most one row for
    [(u, f)]; and when every request is answered, two calls of
    [toggleStar u f] in succession resolve to the negated flag and then to the
    original flag, and leave the starred flag of [(u, f)] as it was. *)
Theorem toggleStar_twice_and_unique
  (u f : string) (calls : list (string * string)) (w : World) :
  (length (stars_of u f (db w)) <= 1)%nat ->
  (checks_answered w ->
     (length (stars_of u f (db (toggle_all calls w))) <= 1)%nat)
  /\ (reliable w ->
      let b := starred u f (db w) in
      let w1 := snd (toggleStar u f w) in
      let w2 := snd (toggleStar u f w1) in
      fst (toggleStar u f w) = Resolved (negb b)
      /\ starred u f (db w1) = negb b
      /\ fst (toggleStar u f w1) = Resolved b
      /\ starred u f (db w2) = b
      /\ (length (stars_of u f (db w2)) <= 1)%nat).
Proof.
  intros Hle. split.
  - intros Hc. apply toggle_all_keeps_unique; assumption.
  - intros Hr. cbv zeta.
    destruct (toggle_reliable u f w Hr Hle) as (R1 & S1 & L1 & Hr1).
    destruct (toggle_reliable u f _ Hr1 L1) as (R2 & S2 & L2 & _).
    rewrite S1, negb_involutive in R2, S2. auto.
Qed.

Lemma toggleStar_twice_and_unique_witness :
  (length (stars_of "ann" "c2" (db (toggle_all [("ann", "c2"); ("bob", "c2"); ("ann", "c1");
                                                ("ann", "c2"); ("ann", "c2")]%string calm)))
   <= 1)%nat
  /\ fst (toggleStar "ann" "c2" calm) = Resolved false
  /\ starred "ann" "c2" (db (snd (toggleStar "ann" "c2" calm))) = false
  /\ fst (toggleStar "ann" "c2" (snd (toggleStar "ann" "c2" calm))) = Resolved true
  /\ starred "ann" "c2"
       (db (snd (toggleStar "ann" "c2" (snd (toggleStar "ann" "c2" calm))))) = true.
Proof.
  assert (Hle : (length (stars_of "ann" "c2" (db calm)) <= 1)%nat) by (vm_compute; lia).
  destruct (toggleStar_twice_and_unique "ann" "c2"
              [("ann", "c2"); ("bob", "c2"); ("ann", "c1"); ("ann", "c2"); ("ann", "c2")]%string
              calm Hle) as [Hseq Htwice].
  split; [apply Hseq; intros n u f; reflexivity |].
  destruct (Htwice (fun n r => eq_refl)) as (R1 & S1 & R2 & S2 & _).
  repeat split; assumption.
Defined.

(** C2 as stated fails when an existence check is not answered. Ann's card
    [c1] is not starred; the first call stars it; the check of the second
    call fails (the third request), the call takes the card for unstarred and
    inserts again: both calls resolve to [true], the flag is not back to its
    original value and the pair has two rows. *)
Lemma toggleStar_twice_duplicates_row :
  starred "ann" "c1" (db (flaky 2)) = false
  /\ fst (toggleStar "ann" "c1" (flaky 2)) = Resolved true
  /\ fst (toggleStar "ann" "c1" (snd (toggleStar "ann" "c1" (flaky 2)))) = Resolved true
  /\ starred "ann" "c1" (db (toggle_all [("ann", "c1"); ("ann", "c1")]%string (flaky 2)))
     = true
  /\ stars_of "ann" "c1" (db (toggle_all [("ann", "c1"); ("ann", "c1")]%string (flaky 2)))
     = [Starred.mk "ann" "c1"; Starred.mk "ann" "c1"].
Proof. repeat split; vm_compute; reflexivity. Qed.

(** C3, as the code has it. [toggleStar] issues the existence check and then
    one mutation. When the check is answered with the one row of the pair, it
    deletes the rows of the pair and resolves to [false]; when the check is
    answered with no row, it inserts a row and resolves to [true]; an error of
    the delete or of the insert is logged and re-raised to the caller, the
    store unchanged. An error of the existence check itself is not re-raised:
    the call goes on to the insert as if no row had been found. *)
Theorem toggleStar_checks_then_toggles (u f : string) (w : World) :
  let n := length (trace w) in
  let r := fst (toggleStar u f w) in
  let w' := snd (toggleStar u f w) in
  let logged := console w ++ [("Error toggling star:"%string, RequestFailed)] in
  (exists checked mutation ok,
     trace w' = trace w ++ [(SelectStarredSingle u f, checked); (mutation, ok)])
  /\ (fails w n (SelectStarredSingle u f) = false ->
      length (stars_of u f (db w)) = 1%nat ->
      (fails w (S n) (DeleteStarred u f) = false ->
         r = Resolved false /\ stars_of u f (db w') = [] /\ console w' = console w)
      /\ (fails w (S n) (DeleteStarred u f) = true ->
         r = Rejected RequestFailed /\ db w' = db w /\ console w' = logged))
  /\ (fails w n (SelectStarredSingle u f) = false ->
      stars_of u f (db w) = [] ->
      (fails w (S n) (InsertStarred u f) = false ->
         r = Resolved true /\ stars_of u f (db w') = [Starred.mk u f]
         /\ console w' = console w)
      /\ (fails w (S n) (InsertStarred u f) = true ->
         r = Rejected RequestFailed /\ db w' = db w /\ console w' = logged))
  /\ (fails w n (SelectStarredSingle u f) = true ->
      (fails w (S n) (InsertStarred u f) = false ->
         r = Resolved true
         /\ starred_flashcards (db w')
            = starred_flashcards (db w) ++ [Starred.mk u f]
         /\ console w' = console w)
      /\ (fails w (S n) (InsertStarred u f) = true ->
         r = Rejected RequestFailed /\ db w' = db w /\ console w' = logged)).
Proof.
  cbv zeta. split; [| split; [| split]].
  - rewrite toggleStar_run. cbv zeta. destruct (negb (fails w (S _) _)); cbn [snd trace]; eauto.
  - intros Hc H1.
    assert (Hf : check_finds u f w = true).
    { rewrite check_finds_answered by exact Hc. apply bool_decide_eq_true, H1. }
    split; intros Hm.
    + rewrite stars_after_toggle, toggleStar_run. cbv zeta. rewrite Hf, Hm. cbn.
      rewrite decide_True by (split; reflexivity). auto.
    + rewrite toggleStar_run. cbv zeta. rewrite Hf, Hm. cbn. auto.
  - intros Hc H0.
    assert (Hf : check_finds u f w = false).
    { rewrite check_finds_answered by exact Hc. rewrite H0. reflexivity. }
    split; intros Hm.
    + rewrite stars_after_toggle, toggleStar_run. cbv zeta. rewrite Hf, Hm, H0. cbn.
      rewrite decide_True by (split; reflexivity). auto.
    + rewrite toggleStar_run. cbv zeta. rewrite Hf, Hm. cbn. auto.
  - intros Hc.
    assert (Hf : check_finds u f w = false) by (unfold check_finds; rewrite Hc; reflexivity).
    split; intros Hm; rewrite toggleStar_run; cbv zeta; rewrite Hf, Hm; cbn; auto.
Qed.

Lemma toggleStar_checks_then_toggles_witness :
  fst (toggleStar "ann" "c2" calm) = Resolved false
  /\ stars_of "ann" "c2" (db (snd (toggleStar "ann" "c2" calm))) = []
  /\ console (snd (toggleStar "ann" "c2" calm)) = [].
Proof.
  destruct (toggleStar_checks_then_toggles "ann" "c2" calm) as (_ & Hfound & _).
  apply Hfound; reflexivity.
Defined.

(** C3 as stated fails when the existence check is not answered. Ann has
    starred [c2] and the check fails: no error reaches the caller and the row
    is not deleted; the call resolves to [true] with a second row inserted. *)
Lemma toggleStar_swallows_check_error :
  starred "ann" "c2" (db (flaky 0)) = true
  /\ fst (toggleStar "ann" "c2" (flaky 0)) = Resolved true
  /\ trace (snd (toggleStar "ann" "c2" (flaky 0)))
     = [(SelectStarredSingle "ann" "c2", false); (InsertStarred "ann" "c2", true)]
  /\ console (snd (toggleStar "ann" "c2" (flaky 0))) = []
  /\ stars_of "ann" "c2" (db (snd (toggleStar "ann" "c2" (flaky 0))))
     = [Starred.mk "ann" "c2"; Starred.mk "ann" "c2"].
Proof. repeat split; vm_compute; reflexivity. Qed.

(** C4, as the code has it. [getStudySets] always resolves. When the query on
    [study_sets] fails it logs the error and resolves to the empty list. When
    that query is answered it resolves to the user's sets, newest-updated
    first, each with a [flashcard_count] from its own count query, issued in
    that order: the number of cards of the set when the count query is
    answered, and 0 when the count query fails (its error is not looked at and
    the list is returned all the same). *)
Theorem getStudySets_swallows_the_main_failure (userId : string) (w : World) :
  let n := length (trace w) in
  let rows := merge_sort newest_first (sets_of_user userId (db w)) in
  let result := fst (getStudySets userId w) in
  let w' := snd (getStudySets userId w) in
  (exists sets, result = Resolved sets)
  /\ (fails w n (SelectStudySets userId) = true ->
      result = Resolved []
      /\ console w' = console w ++ [("Error fetching study sets:"%string, RequestFailed)]
      /\ db w' = db w)
  /\ (fails w n (SelectStudySets userId) = false ->
      exists sets,
        result = Resolved sets
        /\ sets = imap (fun i set =>
                    StudySet.with_flashcard_count set (counted w (S n + i) set)) rows
        /\ rows ≡ₚ sets_of_user userId (db w)
        /\ Sorted (fun a b => StudySet.updated_at b <= StudySet.updated_at a) sets
        /\ trace w' = trace w ++ (SelectStudySets userId, true)
             :: imap (fun i set =>
                  (CountFlashcards (StudySetRow.id set),
                   negb (fails w (S n + i) (CountFlashcards (StudySetRow.id set))))) rows
        /\ console w' = console w
        /\ db w' = db w)
  /\ (reliable w ->
      result = Resolved
        (map (fun set =>
                StudySet.with_flashcard_count set
                  (Z.of_nat (length (cards_of_set (StudySetRow.id set) (db w))))) rows)).
Proof.
  cbv zeta. rewrite getStudySets_run. cbv zeta.
  split; [| split; [| split]].
  - destruct (fails w _ _); eauto.
  - intros ->. auto.
  - intros ->. eexists. split; [reflexivity |]. cbn [snd trace console db].
    destruct (sorted_sets userId (db w)) as [Hs Hp].
    repeat split; try assumption.
    revert Hs. generalize (merge_sort newest_first (sets_of_user userId (db w))).
    intros rows. generalize (S (length (trace w))). intros k. revert k.
    induction rows as [| a rows IH]; intros k Hs; [constructor |].
    rewrite imap_cons. apply Sorted_inv in Hs as [Hs Hd]. constructor.
    + apply (IH (S k)) in Hs. erewrite imap_ext; [exact Hs |].
      intros i x _. cbn. replace (k + S i)%nat with (S k + i)%nat by lia. reflexivity.
    + destruct Hd as [| b rows' Hab]; [constructor |]. rewrite imap_cons. constructor.
      exact Hab.
  - intros Hr. rewrite Hr. cbn [fst]. f_equal.
    rewrite <- imap_const. apply imap_ext. intros i x _. unfold counted. rewrite Hr. reflexivity.
Qed.

Lemma getStudySets_swallows_the_main_failure_witness :
  fst (getStudySets "ann" calm)
  = Resolved [StudySet.mk "s2" "ann" "Nouns" (Some "a first try") 2 9 (Some 1);
              StudySet.mk "s1" "ann" "Verbs" None 1 5 (Some 3)]
  /\ fst (getStudySets "ann" (flaky 0)) = Resolved [].
Proof.
  destruct (getStudySets_swallows_the_main_failure "ann" calm) as (_ & _ & _ & Hok).
  destruct (getStudySets_swallows_the_main_failure "ann" (flaky 0)) as (_ & Hfail & _).
  split.
  - rewrite (Hok (fun n r => eq_refl)). vm_compute. reflexivity.
  - apply Hfail. reflexivity.
Defined.

(** C4 as stated fails when a count query fails: the second request, the
    count of ann's newest set, is not answered; the result is not the empty
    list but both sets, the newest with a count of 0, and nothing is logged. *)
Lemma getStudySets_survives_count_failure :
  fst (getStudySets "ann" (flaky 1))
  = Resolved [StudySet.mk "s2" "ann" "Nouns" (Some "a first try") 2 9 (Some 0);
              StudySet.mk "s1" "ann" "Verbs" None 1 5 (Some 3)]
  /\ trace (snd (getStudySets "ann" (flaky 1)))
     = [(SelectStudySets "ann", true); (CountFlashcards "s2", false);
        (CountFlashcards "s1", true)]
  /\ console (snd (getStudySets "ann" (flaky 1))) = []
  /\ fst (getStudySets "ann" (flaky 1)) <> Resolved [].
Proof. repeat split; vm_compute; congruence. Qed.

(** C5, as the code has it. When the query on [flashcards] is answered,
    [getFlashcards] resolves to the cards of the study set, sorted by
    [position] ascending. With a [userId] that is given and is not the empty
    string, a second request fetches the user's starred rows and, when it is
    answered, each card's [is_starred] is the membership of the card's [id]
    in the set of flashcard identifiers the user has starred. With [userId]
    omitted, or given as the empty string, no second request is issued and
    [is_starred] is left undefined on every card. *)
Theorem getFlashcards_sorted_and_starred
  (studySetId : string) (userId : option string) (w : World) :
  fails w (length (trace w)) (SelectFlashcards studySetId) = false ->
  let n := length (trace w) in
  let w' := snd (getFlashcards studySetId userId w) in
  exists cards,
    fst (getFlashcards studySetId userId w) = Resolved cards
    /\ Flashcard.to_row <$> cards ≡ₚ cards_of_set studySetId (db w)
    /\ Sorted (fun a b => Flashcard.position a <= Flashcard.position b) cards
    /\ (forall u, userId = Some u -> u <> ""%string ->
        fails w (S n) (SelectStarred u) = false ->
        trace w' = trace w ++ [(SelectFlashcards studySetId, true); (SelectStarred u, true)]
        /\ Forall (fun c =>
                     Flashcard.is_starred c
                     = Some (bool_decide (Flashcard.id c ∈ starred_ids u (db w)))) cards
        /\ Forall (fun c =>
                     Flashcard.is_starred c = Some (starred u (Flashcard.id c) (db w)))
             cards)
    /\ (userId = None \/ userId = Some ""%string ->
        trace w' = trace w ++ [(SelectFlashcards studySetId, true)]
        /\ Forall (fun c => Flashcard.is_starred c = None) cards).
Proof.
  intros Hq. cbv zeta. rewrite getFlashcards_run. cbv zeta. rewrite Hq.
  destruct (sorted_cards studySetId (db w)) as [Hs Hp].
  set (rows := merge_sort by_position (cards_of_set studySetId (db w))) in *.
  destruct (truthy userId) as [u' |] eqn:Ht; (eexists; split; [reflexivity |]).
  - assert (Hu : userId = Some u' /\ u' <> ""%string).
    { unfold truthy in Ht. destruct userId as [v |]; [| discriminate].
      destruct (decide (v = ""%string)); [discriminate |]. split; congruence. }
    destruct Hu as [-> Hne]. cbn [snd trace].
    split; [| split; [| split]].
    + rewrite <- list_fmap_compose. erewrite list_fmap_ext; [rewrite list_fmap_id; exact Hp |].
      intros i [a b c d e g] _. reflexivity.
    + eapply Sorted_fmap; [| exact Hs]. intros x y Hxy. exact Hxy.
    + intros u [= <-] _ Hstar. rewrite Hstar. cbn [negb].
      split; [reflexivity |]. split; apply Forall_fmap, Forall_true; intros card; cbn.
      * reflexivity.
      * rewrite starred_ids_flag. reflexivity.
    + intros [H | [= H]]; [discriminate | congruence].
  - cbn [snd trace]. split; [| split; [| split]].
    + rewrite <- list_fmap_compose. erewrite list_fmap_ext; [rewrite list_fmap_id; exact Hp |].
      intros i [a b c d e g] _. reflexivity.
    + eapply Sorted_fmap; [| exact Hs]. intros x y Hxy. exact Hxy.
    + intros u -> Hne. unfold truthy in Ht.
      destruct (decide (u = ""%string)); [contradiction | discriminate].
    + intros _. split; [reflexivity |]. apply Forall_fmap, Forall_true. intros card.
      reflexivity.
Qed.

Lemma getFlashcards_sorted_and_starred_witness :
  exists cards,
    fst (getFlashcards "s1" (Some "ann"%string) calm) = Resolved cards
    /\ Flashcard.position <$> cards = [0; 1; 2]
    /\ Flashcard.is_starred <$> cards = [Some true; Some false; Some false].
Proof.
  destruct (getFlashcards_sorted_and_starred "s1" (Some "ann"%string) calm eq_refl)
    as (cards & Hr & _).
  exists cards. split; [exact Hr |].
  assert (E : Resolved cards = fst (getFlashcards "s1" (Some "ann"%string) calm))
    by (symmetry; exact Hr).
  vm_compute in E. injection E as ->. split; reflexivity.
Defined.

(** C5 as stated fails in two ways. The empty string is a [userId] that is
    supplied, yet the guard takes it for none and [is_starred] stays
    undefined. And when the request for ann's starred rows fails, the card
    [c2] that ann has starred comes back with [is_starred = false]. *)
Lemma getFlashcards_flag_not_membership :
  (exists cards,
     fst (getFlashcards "s1" (Some ""%string) calm) = Resolved cards
     /\ length cards = 3%nat
     /\ Forall (fun c =>
                  Flashcard.is_starred c = None
                  /\ Flashcard.is_starred c
                     <> Some (bool_decide (Flashcard.id c ∈ starred_ids "" (db calm))))
          cards)
  /\ (exists card cards,
       fst (getFlashcards "s1" (Some "ann"%string) (flaky 1)) = Resolved (card :: cards)
       /\ Flashcard.id card = "c2"%string
       /\ bool_decide (Flashcard.id card ∈ starred_ids "ann" (db (flaky 1))) = true
       /\ Flashcard.is_starred card = Some false).
Proof.
  split.
  - eexists. split; [vm_compute; reflexivity |]. split; [reflexivity |].
    repeat constructor; discriminate.
  - do 2 eexists. split; [vm_compute; reflexivity |].
    repeat split; vm_compute; reflexivity.
Qed.

(** C9. In [getFlashcards], when the query for the user's starred rows is
    issued and fails, or is answered with no row, the function still resolves
    to the full list of the set's cards in position order, each with
    [is_starred = false]; nothing is logged and no error reaches the caller. *)
Theorem getFlashcards_ignores_star_failure
  (studySetId : string) (userId : option string) (u : string) (w : World) :
  let w' := snd (getFlashcards studySetId userId w) in
  last (trace w') = Some (SelectStarred u, false)
  \/ (last (trace w') = Some (SelectStarred u, true) /\ starred_of_user u (db w) = []) ->
  let rows := merge_sort by_position (cards_of_set studySetId (db w)) in
  fst (getFlashcards studySetId userId w)
  = Resolved (map (fun card => Flashcard.with_is_starred card false) rows)
  /\ rows ≡ₚ cards_of_set studySetId (db w)
  /\ console w' = console w.
Proof.
  cbv zeta. rewrite getFlashcards_run. cbv zeta.
  destruct (fails w (length (trace w)) (SelectFlashcards studySetId)).
  { cbn [snd trace]. rewrite last_snoc. intros [[=] | [[=] _]]. }
  destruct (truthy userId) as [u' |]; cbn [snd trace fst console].
  2: { rewrite last_snoc. intros [[=] | [[=] _]]. }
  replace (trace w ++ [(SelectFlashcards studySetId, true);
                       (SelectStarred u', negb (fails w (S (length (trace w))) (SelectStarred u')))])
    with ((trace w ++ [(SelectFlashcards studySetId, true)])
          ++ [(SelectStarred u', negb (fails w (S (length (trace w))) (SelectStarred u')))])
    by (rewrite <- app_assoc; reflexivity).
  rewrite last_snoc. intros H.
  split; [| split; [apply merge_sort_Permutation | reflexivity]].
  f_equal. apply map_ext. intros card. f_equal.
  apply bool_decide_eq_false.
  destruct H as [[= <- Hf] | [[= <- Hf] Hnone]].
  - rewrite Hf. set_solver.
  - rewrite Hf. unfold starred_ids. rewrite Hnone. set_solver.
Qed.

Lemma getFlashcards_ignores_star_failure_witness :
  fst (getFlashcards "s1" (Some "ann"%string) (flaky 1))
  = Resolved [Flashcard.mk "c2" "s1" "etre" "to be" 0 1 (Some false);
              Flashcard.mk "c3" "s1" "avoir" "to have" 1 1 (Some false);
              Flashcard.mk "c1" "s1" "aller" "to go" 2 1 (Some false)]
  /\ console (snd (getFlashcards "s1" (Some "ann"%string) (flaky 1))) = [].
Proof.
  destruct (getFlashcards_ignores_star_failure "s1" (Some "ann"%string) "ann" (flaky 1))
    as (Hr & _ & Hc).
  - left. vm_compute. reflexivity.
  - split; [rewrite Hr; vm_compute; reflexivity | exact Hc].
Defined.

(** C10. [createStudySet] sends [description || null]: when the argument is
    omitted or is the empty string, the insert carries a null description and
    the row stored and the set returned have none; any other description is
    stored as given. So a set returned by [createStudySet] never has the empty
    string for a description. *)
Theorem createStudySet_description_or_null
  (userId title : string) (description : option string) (w : World) :
  let n := length (trace w) in
  let result := fst (createStudySet userId title description w) in
  let w' := snd (createStudySet userId title description w) in
  let sent := match description with
              | Some d => if decide (d = ""%string) then None else Some d
              | None => None
              end in
  (description = None \/ description = Some ""%string -> sent = None)
  /\ (exists ok, trace w' = trace w ++ [(InsertStudySet userId title sent, ok)])
  /\ (fails w n (InsertStudySet userId title sent) = false ->
      exists row,
        study_sets (db w') = study_sets (db w) ++ [row]
        /\ StudySetRow.description row = sent
        /\ StudySetRow.user_id row = userId
        /\ StudySetRow.title row = title
        /\ result = Resolved (Some (StudySet.of_row row)))
  /\ (fails w n (InsertStudySet userId title sent) = true ->
      result = Resolved None /\ db w' = db w
      /\ console w' = console w ++ [("Error creating study set:"%string, RequestFailed)])
  /\ (forall set, result = Resolved (Some set) ->
      StudySet.description set = sent /\ StudySet.description set <> Some ""%string).
Proof.
  cbv zeta. rewrite createStudySet_run. cbv zeta.
  change (match description with
          | Some d => if decide (d = ""%string) then None else Some d
          | None => None
          end) with (or_null description).
  split; [| split; [| split; [| split]]].
  - intros [-> | ->]; reflexivity.
  - destruct (fails w _ _); cbn [snd trace]; eauto.
  - intros ->. cbn [fst snd db study_sets]. eexists. repeat split.
  - intros ->. cbn [fst snd db console]. auto.
  - intros set. destruct (fails w _ _); cbn [fst]; intros [= <-].
    split; [reflexivity | apply or_null_not_empty].
Qed.

Lemma createStudySet_description_or_null_witness :
  fst (createStudySet "ann" "Adverbs" (Some ""%string) calm)
  = Resolved (Some (StudySet.mk "4" "ann" "Adverbs" None 10 10 None))
  /\ fst (createStudySet "ann" "Adverbs" None calm)
     = Resolved (Some (StudySet.mk "4" "ann" "Adverbs" None 10 10 None))
  /\ fst (createStudySet "ann" "Adverbs" (Some "of manner"%string) calm)
     = Resolved (Some (StudySet.mk "4" "ann" "Adverbs" (Some "of manner") 10 10 None)).
Proof.
  destruct (createStudySet_description_or_null "ann" "Adverbs" (Some ""%string) calm)
    as (_ & _ & (row & _ & _ & _ & _ & Hr) & _); [reflexivity |].
  split; [| split]; vm_compute; reflexivity.
Defined.

(** C6. [deleteStudySet] issues the delete of the set's flashcards, then the
    delete of the set, and resolves to a boolean: [true] exactly when the
    second delete is answered. The outcome of the first delete is not looked
    at: when it fails the cards stay, the second delete is issued all the
    same, and the function can resolve to [true] with the cards still there. *)
Theorem deleteStudySet_best_effort (studySetId : string) (w : World) :
  let n := length (trace w) in
  let ok1 := negb (fails w n (DeleteFlashcards studySetId)) in
  let ok2 := negb (fails w (S n) (DeleteStudySet studySetId)) in
  let w' := snd (deleteStudySet studySetId w) in
  fst (deleteStudySet studySetId w) = Resolved ok2
  /\ trace w'
     = trace w ++ [(DeleteFlashcards studySetId, ok1); (DeleteStudySet studySetId, ok2)]
  /\ flashcards (db w')
     = (if ok1 then filter (fun r => FlashcardRow.study_set_id r <> studySetId)
                     (flashcards (db w))
        else flashcards (db w))
  /\ study_sets (db w')
     = (if ok2 then filter (fun r => StudySetRow.id r <> studySetId) (study_sets (db w))
        else study_sets (db w))
  /\ console w'
     = console w
       ++ (if ok2 then [] else [("Error deleting study set:"%string, RequestFailed)])
  /\ (ok1 = true -> cards_of_set studySetId (db w') = [])
  /\ (ok1 = false -> ok2 = true ->
      fst (deleteStudySet studySetId w) = Resolved true
      /\ flashcards (db w') = flashcards (db w)).
Proof.
  cbv zeta. rewrite deleteStudySet_run. cbv zeta. cbn [fst snd db trace console flashcards
                                                      study_sets].
  do 5 (split; [reflexivity |]). split.
  - intros ->. unfold cards_of_set. cbn [flashcards].
    induction (flashcards (db w)) as [| r l IH]; [reflexivity |].
    rewrite (filter_cons (fun r => FlashcardRow.study_set_id r <> studySetId)).
    case_decide as Hr; [rewrite filter_cons, decide_False by exact Hr |]; exact IH.
  - intros -> ->. split; reflexivity.
Qed.

Lemma deleteStudySet_best_effort_witness :
  fst (deleteStudySet "s1" (flaky 0)) = Resolved true
  /\ flashcards (db (snd (deleteStudySet "s1" (flaky 0)))) = flashcards (db (flaky 0))
  /\ length (cards_of_set "s1" (db (snd (deleteStudySet "s1" (flaky 0))))) = 3%nat
  /\ sets_of_user "ann" (db (snd (deleteStudySet "s1" (flaky 0))))
     = [StudySetRow.mk "s2" "ann" "Nouns" (Some "a first try") 2 9].
Proof.
  destruct (deleteStudySet_best_effort "s1" (flaky 0)) as (_ & _ & _ & _ & _ & _ & H).
  destruct H as [Hr Hc]; [reflexivity | reflexivity |].
  split; [exact Hr |]. split; [exact Hc |]. split; vm_compute; reflexivity.
Defined.

End DataAccessProps.

(** * Further properties of the study-session controller and its page *)

Module SessionExtras.
Import Session Page Demo.

Lemma run_app (flashcards : list Flashcard.t) (ops1 ops2 : list Op) (s : State) :
  run flashcards (ops1 ++ ops2) s = run flashcards ops2 (run flashcards ops1 s).
Proof. unfold run. apply foldl_app. Qed.

Lemma nonempty_cardCount (flashcards : list Flashcard.t) :
  flashcards <> [] -> 0 < cardCount flashcards.
Proof. unfold cardCount. destruct flashcards; [congruence | simpl length; lia]. Qed.

(** X1. On a list with a card and from an index in range, the index after any
    run of operations is the starting index plus the number of nexts minus
    the number of previouses, modulo the number of cards; flips do not
    count. *)
Theorem run_index_is_net_moves
  (flashcards : list Flashcard.t) (ops : list Op) (s : State) :
  flashcards <> [] ->
  0 <= currentCardIndex s < cardCount flashcards ->
  currentCardIndex (run flashcards ops s)
  = (currentCardIndex s + net_moves ops) mod cardCount flashcards.
Proof.
  intros Hne. pose proof (nonempty_cardCount flashcards Hne) as HL.
  revert s. induction ops as [| o ops IH]; intros s Hs.
  - cbn. rewrite Z.add_0_r, Z.mod_small; lia.
  - change (run flashcards (o :: ops) s) with (run flashcards ops (step flashcards s o)).
    rewrite IH by (apply SessionProps.step_in_range; assumption).
    cbn [net_moves foldr]. fold (net_moves ops).
    destruct o; cbn [step move].
    + reflexivity.
    + rewrite SessionProps.next_index by lia. cbn [currentCardIndex].
      rewrite Zplus_mod_idemp_l. f_equal. lia.
    + rewrite SessionProps.prev_index by lia. cbn [currentCardIndex].
      rewrite Zplus_mod_idemp_l.
      replace (currentCardIndex s - 1 + cardCount flashcards + net_moves ops)
        with (currentCardIndex s + (-1 + net_moves ops) + 1 * cardCount flashcards) by lia.
      rewrite Z.mod_add by lia. reflexivity.
Qed.

Lemma run_index_is_net_moves_witness :
  currentCardIndex
    (run four_cards [Previous; Flip; Previous; Next; Previous; Previous; Flip] (mkState 1 false))
  = (1 + net_moves [Previous; Flip; Previous; Next; Previous; Previous; Flip]) mod 4.
Proof.
  apply (run_index_is_net_moves four_cards
           [Previous; Flip; Previous; Next; Previous; Previous; Flip] (mkState 1 false)).
  - discriminate.
  - vm_compute. split; congruence.
Defined.

Lemma run_flips (flashcards : list Flashcard.t) (k : nat) (s : State) :
  run flashcards (repeat Flip k) s
  = mkState (currentCardIndex s) (xorb (isFlipped s) (Nat.odd k)).
Proof.
  revert s. induction k as [| k IH]; intros [i b].
  - cbn. rewrite xorb_false_r. reflexivity.
  - change (run flashcards (repeat Flip (S k)) (mkState i b))
      with (run flashcards (repeat Flip k) (handleFlipCard (mkState i b))).
    rewrite IH. unfold handleFlipCard. cbn [currentCardIndex isFlipped].
    rewrite Nat.odd_succ, <- Nat.negb_odd. f_equal.
    destruct b, (Nat.odd k); reflexivity.
Qed.

(** X2. The face shown after a run depends only on the flips since the last
    navigation: on a list with a card, after any run that ends with a next or
    a previous followed by [k] flips, [isFlipped] is true exactly when [k] is
    odd; and [k] flips alone change [isFlipped] exactly when [k] is odd and
    never move the index. *)
Theorem face_after_run
  (flashcards : list Flashcard.t) (before : list Op) (nav : Op) (k : nat) (s : State) :
  flashcards <> [] ->
  nav <> Flip ->
  isFlipped (run flashcards (before ++ nav :: repeat Flip k) s) = Nat.odd k
  /\ run flashcards (repeat Flip k) s
     = mkState (currentCardIndex s) (xorb (isFlipped s) (Nat.odd k)).
Proof.
  intros Hne Hnav. split; [| apply run_flips].
  pose proof (nonempty_cardCount flashcards Hne) as HL.
  rewrite run_app.
  change (run flashcards (nav :: repeat Flip k) ?t)
    with (run flashcards (repeat Flip k) (step flashcards t nav)).
  rewrite run_flips. cbn [isFlipped].
  assert (E : isFlipped (step flashcards (run flashcards before s) nav) = false).
  { destruct nav; [congruence | |]; cbn [step].
    - unfold handleNextCard. destruct (Z.eqb_spec (cardCount flashcards) 0); [lia | reflexivity].
    - unfold handlePrevCard. destruct (Z.eqb_spec (cardCount flashcards) 0); [lia | reflexivity]. }
  rewrite E. reflexivity.
Qed.

Lemma face_after_run_witness :
  isFlipped (run four_cards ([Flip; Next; Flip] ++ Previous :: repeat Flip 3) initial) = true
  /\ run four_cards (repeat Flip 3) initial = mkState 0 true.
Proof.
  apply (face_after_run four_cards [Flip; Next; Flip] Previous 3 initial); discriminate.
Defined.

Lemma at_index_in_range {A} (l : list A) (i : Z) :
  0 <= i < Z.of_nat (length l) -> exists x, at_index l i = Some x /\ l !! Z.to_nat i = Some x.
Proof.
  intros Hi. unfold at_index. destruct (Z.ltb_spec i 0); [lia |].
  destruct (lookup_lt_is_Some_2 l (Z.to_nat i)) as [x Hx]; [lia |]. eauto.
Qed.

(** X3. With a user and a study set loaded and a list with a card, the page
    after any run of operations from the initial state shows the study view
    with the card at [currentCardIndex]: [currentCard] is never undefined, and
    the progress line reads a card number between 1 and the number of
    cards. *)
Theorem render_always_has_a_card
  (flashcards : list Flashcard.t) (ops : list Op)
  (u : string) (studySet : StudySet.t) :
  flashcards <> [] ->
  u <> ""%string ->
  let s := run flashcards ops initial in
  exists card,
    flashcards !! Z.to_nat (currentCardIndex s) = Some card
    /\ render false (Some u) (Some studySet) flashcards s
       = Studying (mkStudy card (currentCardIndex s + 1) (cardCount flashcards)
                     (isFlipped s) (bool_decide (Flashcard.is_starred card = Some true))
                     (cardCount flashcards <=? 1))
    /\ 1 <= currentCardIndex s + 1 <= cardCount flashcards.
Proof.
  intros Hne Hu s.
  pose proof (nonempty_cardCount flashcards Hne) as HL.
  assert (Hr : 0 <= currentCardIndex s < cardCount flashcards)
    by (apply SessionProps.run_in_range; [exact HL | cbn; lia]).
  destruct (at_index_in_range flashcards (currentCardIndex s) Hr) as (card & Hat & Hl).
  exists card. split; [exact Hl |]. split; [| lia].
  unfold render, truthy. rewrite decide_False by exact Hu. cbn [orb negb].
  rewrite bool_decide_eq_true_2 by (eexists; reflexivity). cbn [negb].
  destruct (Z.eqb_spec (cardCount flashcards) 0); [lia |].
  rewrite Hat. reflexivity.
Qed.

Lemma render_always_has_a_card_witness :
  exists card,
    render false (Some "ann"%string)
      (Some (StudySet.mk "s1" "ann" "Verbs" None 1 5 (Some 4))) four_cards
      (run four_cards [Previous; Flip] initial)
    = Studying (mkStudy card 4 4 true false false)
    /\ Flashcard.id card = "3"%string.
Proof.
  destruct (render_always_has_a_card four_cards [Previous; Flip] "ann"
              (StudySet.mk "s1" "ann" "Verbs" None 1 5 (Some 4))
              ltac:(discriminate) ltac:(discriminate)) as (card & Hl & Hr & _).
  exists card. rewrite Hr. vm_compute in Hl. injection Hl as <-.
  split; vm_compute; reflexivity.
Defined.

End SessionExtras.

Module PageExtras.
Import Session Page Demo.

(** The listener in place has the [isFlipped] of the current state: this
    holds at the first render and every event keeps it. *)
Lemma commit_in_step (p : Page.t) (s' : State) :
  seen_isFlipped (listener p) = isFlipped (state p) ->
  seen_isFlipped (listener (commit p s')) = isFlipped (state (commit p s')).
Proof.
  unfold commit. intros Hp. cbn [listener state].
  destruct (bool_decide (currentCardIndex s' = currentCardIndex (state p))); cbn [andb];
    [| reflexivity].
  case_bool_decide as Hf; [congruence | reflexivity].
Qed.

Lemma on_event_in_step (p : Page.t) (e : Event) :
  seen_isFlipped (listener p) = isFlipped (state p) ->
  seen_isFlipped (listener (on_event p e)) = isFlipped (state (on_event p e)).
Proof.
  intros Hp. destruct e as [cards | o | key]; cbn [on_event].
  - exact Hp.
  - destruct (clickable (flashcards p) o); [apply commit_in_step |]; exact Hp.
  - apply commit_in_step, Hp.
Qed.

Lemma play_in_step (events : list Event) (p : Page.t) :
  seen_isFlipped (listener p) = isFlipped (state p) ->
  seen_isFlipped (listener (play events p)) = isFlipped (state (play events p)).
Proof.
  revert p. induction events as [| e events IH]; intros p Hp; [exact Hp |].
  apply IH, on_event_in_step, Hp.
Qed.

Lemma key_state (p : Page.t) (key : string) :
  state (on_event p (Key key)) = handleKeyDown (listener p) key (state p).
Proof. reflexivity. Qed.

Lemma commit_changed (p : Page.t) (s' : State) :
  s' <> state p -> listener (commit p s') = mkClosure (flashcards p) (isFlipped s').
Proof.
  intros Hne. unfold commit. cbn [listener].
  case_bool_decide as Hi; cbn [andb]; [| reflexivity].
  case_bool_decide as Hf; [| reflexivity].
  exfalso. apply Hne. destruct s', (state p). cbn in *. congruence.
Qed.

(** X4. The arrow keys are dead after the cards load. From the first render,
    once the query delivers the cards, any sequence of key presses other than
    space and Enter leaves the controller in its initial state and the
    listener of the first render in place: that listener still has the empty
    list of the first render, so next and previous return at once. *)
Theorem arrow_keys_dead_after_load (cards : list Flashcard.t) (keys : list string) :
  Forall (fun key => key <> " "%string /\ key <> "Enter"%string) keys ->
  let p := play (Loaded cards :: map Key keys) mounted in
  state p = initial
  /\ flashcards p = cards
  /\ listener p = mkClosure [] false.
Proof.
  intros Hkeys. cbv zeta. change (play (Loaded cards :: map Key keys) mounted)
    with (play (map Key keys) (mkPage cards initial (mkClosure [] false))).
  induction Hkeys as [| key keys [Hs He] _ IH]; [repeat split |].
  change (play (map Key (key :: keys)) ?p)
    with (play (map Key keys) (on_event p (Key key))).
  replace (on_event (mkPage cards initial (mkClosure [] false)) (Key key))
    with (mkPage cards initial (mkClosure [] false)); [exact IH |].
  cbn [on_event listener state]. unfold handleKeyDown.
  rewrite !bool_decide_eq_false_2 by assumption. cbn [orb seen_flashcards].
  repeat case_bool_decide; reflexivity.
Qed.

Lemma arrow_keys_dead_after_load_witness :
  state (play (Loaded four_cards :: map Key ["ArrowRight"; "ArrowRight"; "ArrowLeft"]%string)
           mounted) = initial
  /\ state (play [Loaded four_cards; Click Next; Key "ArrowRight"%string] mounted)
     = mkState 2 false.
Proof.
  destruct (arrow_keys_dead_after_load four_cards ["ArrowRight"; "ArrowRight"; "ArrowLeft"]%string)
    as (Hs & _).
  - repeat constructor; discriminate.
  - split; [exact Hs | vm_compute; reflexivity].
Defined.

(** X5. What the keys do once the listener is renewed. After any events from
    the first render, the listener in place has the current [isFlipped], so
    space and Enter always turn the card over and keep the index; an event
    that changes the state puts a listener in place that has the current
    cards; and with such a listener the arrow keys do what the buttons'
    handlers do. *)
Theorem keys_follow_the_state (events : list Event) (e : Event) :
  let p := play events mounted in
  let p' := on_event p e in
  seen_isFlipped (listener p') = isFlipped (state p')
  /\ state (on_event p' (Key " ")) = handleFlipCard (state p')
  /\ state (on_event p' (Key "Enter")) = handleFlipCard (state p')
  /\ (state p' <> state p -> seen_flashcards (listener p') = flashcards p')
  /\ (seen_flashcards (listener p') = flashcards p' ->
      state (on_event p' (Key "ArrowRight")) = handleNextCard (flashcards p') (state p')
      /\ state (on_event p' (Key "ArrowLeft")) = handlePrevCard (flashcards p') (state p')).
Proof.
  cbv zeta. set (p := play events mounted).
  assert (Hp : seen_isFlipped (listener (on_event p e)) = isFlipped (state (on_event p e)))
    by (apply on_event_in_step, play_in_step; reflexivity).
  split; [exact Hp |]. split; [| split; [| split]].
  - rewrite key_state. unfold handleKeyDown, handleFlipCard. cbn [bool_decide orb].
    rewrite Hp. reflexivity.
  - rewrite key_state. unfold handleKeyDown, handleFlipCard.
    rewrite (bool_decide_eq_true_2 ("Enter"%string = "Enter"%string)) by reflexivity.
    rewrite orb_true_r, Hp. reflexivity.
  - destruct e as [cards | o | key]; cbn [on_event].
    + intros H. contradiction H. reflexivity.
    + destruct (clickable (flashcards p) o); [| intros H; contradiction H; reflexivity].
      intros H. rewrite commit_changed by exact H. reflexivity.
    + intros H. rewrite commit_changed by exact H. reflexivity.
  - intros Hseen. rewrite !key_state. unfold handleKeyDown. rewrite Hseen.
    split; reflexivity.
Qed.

Lemma keys_follow_the_state_witness :
  state (play [Loaded four_cards; Key "ArrowRight"; Key " "; Key "ArrowRight";
               Key "ArrowRight"; Key "Enter"]%string mounted)
  = mkState 2 true.
Proof.
  destruct (keys_follow_the_state
              [Loaded four_cards; Key "ArrowRight"; Key " "; Key "ArrowRight"]%string
              (Key "ArrowRight"%string)) as (_ & _ & Henter & _).
  change (play [Loaded four_cards; Key "ArrowRight"; Key " "; Key "ArrowRight";
                Key "ArrowRight"; Key "Enter"]%string mounted)
    with (on_event
            (on_event
               (play [Loaded four_cards; Key "ArrowRight"; Key " "; Key "ArrowRight"]%string
                  mounted)
               (Key "ArrowRight"%string))
            (Key "Enter"%string)).
  rewrite Henter. vm_compute. reflexivity.
Defined.

(** X6. [handleToggleStar] never rejects. Without a user or without a current
    card it issues no request and changes nothing. Otherwise it calls
    [toggleStar] for the current card: when that resolves the flashcards
    query is invalidated; when that rejects, the error is caught and logged a
    second time, the query is not invalidated and the store is unchanged. *)
Theorem handleToggleStar_swallows
  (userId : option string) (currentCard : option Flashcard.t) (w : World) :
  let r := fst (handleToggleStar userId currentCard w) in
  let w' := snd (handleToggleStar userId currentCard w) in
  (exists b, r = Resolved b)
  /\ (truthy userId = None \/ currentCard = None -> r = Resolved false /\ w' = w)
  /\ (forall u card, truthy userId = Some u -> currentCard = Some card ->
      (forall b, fst (toggleStar u (Flashcard.id card) w) = Resolved b ->
         r = Resolved true /\ w' = snd (toggleStar u (Flashcard.id card) w))
      /\ (forall err, fst (toggleStar u (Flashcard.id card) w) = Rejected err ->
         r = Resolved false
         /\ db w' = db w
         /\ console w'
            = console w ++ [("Error toggling star:"%string, err);
                            ("Error toggling star:"%string, err)])).
Proof.
  cbv zeta. unfold handleToggleStar.
  destruct (truthy userId) as [u |] eqn:Hu; [destruct currentCard as [card |] |].
  2, 3: (split; [eexists; reflexivity |]); (split; [intros _; split; reflexivity |]);
        intros u' card' H1 H2; congruence.
  unfold try_catch, bind, ret, console_error.
  split; [| split].
  - destruct (toggleStar u (Flashcard.id card) w) as [[b | err] w1]; eexists; reflexivity.
  - intros [H | H]; discriminate.
  - intros u' card' [= <-] [= <-]. split.
    + intros b Hb. destruct (toggleStar u (Flashcard.id card) w) as [[b' | err] w1];
        [split; reflexivity | discriminate].
    + intros err Herr. revert Herr. rewrite DataAccessProps.toggleStar_run. cbv zeta.
      destruct (negb (fails w _ _)); cbn; [discriminate |].
      intros [= <-]. rewrite <- app_assoc. repeat split.
Qed.

Lemma handleToggleStar_swallows_witness :
  fst (handleToggleStar (Some "ann"%string)
         (Some (Flashcard.mk "c2" "s1" "etre" "to be" 0 1 (Some true))) (flaky 1))
  = Resolved false
  /\ console (snd (handleToggleStar (Some "ann"%string)
                     (Some (Flashcard.mk "c2" "s1" "etre" "to be" 0 1 (Some true))) (flaky 1)))
     = [("Error toggling star:"%string, RequestFailed);
        ("Error toggling star:"%string, RequestFailed)].
Proof.
  destruct (handleToggleStar_swallows (Some "ann"%string)
              (Some (Flashcard.mk "c2" "s1" "etre" "to be" 0 1 (Some true))) (flaky 1))
    as (_ & _ & H).
  destruct (H "ann"%string (Flashcard.mk "c2" "s1" "etre" "to be" 0 1 (Some true))
              eq_refl eq_refl) as [_ Hrej].
  destruct (Hrej RequestFailed eq_refl) as (Hr & _ & Hc).
  split; [exact Hr | exact Hc].
Defined.

End PageExtras.

(** * Further properties of the data-access module *)

Module DataAccessExtras.
Import Demo DataAccessProps.

Lemma getStudySet_run (studySetId : string) (w : World) :
  getStudySet studySetId w =
  let n := length (trace w) in
  if fails w n (SelectStudySet studySetId) then
    (Resolved None,
     mkWorld (db w) (fails w) (trace w ++ [(SelectStudySet studySetId, false)])
       (console w ++ [("Error fetching study set:"%string, RequestFailed)]))
  else
    match sets_with_id studySetId (db w) with
    | [row] =>
        (Resolved (Some (StudySet.with_flashcard_count row (counted w (S n) row))),
         mkWorld (db w) (fails w)
           (trace w ++ [(SelectStudySet studySetId, true);
                        (CountFlashcards (StudySetRow.id row),
                         negb (fails w (S n) (CountFlashcards (StudySetRow.id row))))])
           (console w))
    | _ =>
        (Resolved None,
         mkWorld (db w) (fails w) (trace w ++ [(SelectStudySet studySetId, true)])
           (console w ++ [("Error fetching study set:"%string, NotSingleRow)]))
    end.
Proof.
  cbv zeta. unfold getStudySet, try_catch, select_study_set.
  unfold bind at 1. run_query.
  destruct (fails w (length (trace w)) (SelectStudySet studySetId)); [reflexivity |].
  cbn [negb]. destruct (sets_with_id studySetId (db w)) as [| row [| row' rows]];
    [reflexivity | | reflexivity].
  cbn [single error data answer_data]. unfold bind, ret, count_flashcards, counted.
  run_query. rewrite length_app, Nat.add_1_r, <- app_assoc. cbn [length app].
  destruct (fails w (S _) _); cbn -[or_zero]; rewrite ?or_zero_Some; reflexivity.
Qed.

Lemma sets_with_id_id (studySetId : string) (s : Store) (row : StudySetRow.t) :
  row ∈ sets_with_id studySetId s -> StudySetRow.id row = studySetId.
Proof. unfold sets_with_id. intros H. apply list_elem_of_filter in H as [H _]. exact H. Qed.

(** X7. [getStudySet] always resolves. It resolves to the set, with its
    flashcard count, exactly when the request is answered and one row has the
    identifier; the count is 0 when the count query fails. When the request
    fails, or no row (or more than one) has the identifier, it logs the error
    and resolves to null, and in the second case issues no count query. *)
Theorem getStudySet_finds_or_null (studySetId : string) (w : World) :
  let n := length (trace w) in
  let r := fst (getStudySet studySetId w) in
  let w' := snd (getStudySet studySetId w) in
  (exists found, r = Resolved found)
  /\ (fails w n (SelectStudySet studySetId) = true ->
      r = Resolved None
      /\ console w' = console w ++ [("Error fetching study set:"%string, RequestFailed)])
  /\ (fails w n (SelectStudySet studySetId) = false ->
      forall row, sets_with_id studySetId (db w) = [row] ->
      r = Resolved (Some (StudySet.with_flashcard_count row (counted w (S n) row)))
      /\ StudySetRow.id row = studySetId
      /\ console w' = console w)
  /\ (fails w n (SelectStudySet studySetId) = false ->
      length (sets_with_id studySetId (db w)) <> 1%nat ->
      r = Resolved None
      /\ trace w' = trace w ++ [(SelectStudySet studySetId, true)]
      /\ console w' = console w ++ [("Error fetching study set:"%string, NotSingleRow)])
  /\ (forall set, r = Resolved (Some set) ->
      fails w n (SelectStudySet studySetId) = false
      /\ length (sets_with_id studySetId (db w)) = 1%nat
      /\ StudySet.id set = studySetId).
Proof.
  cbv zeta. rewrite getStudySet_run. cbv zeta.
  split; [| split; [| split; [| split]]].
  - destruct (fails w _ _); [eauto |].
    destruct (sets_with_id studySetId (db w)) as [| row [| row' rows]]; eauto.
  - intros ->. split; reflexivity.
  - intros -> row Hrow. rewrite Hrow. repeat split.
    apply (sets_with_id_id studySetId (db w)). rewrite Hrow. left.
  - intros -> Hlen.
    destruct (sets_with_id studySetId (db w)) as [| row [| row' rows]];
      [| cbn in Hlen; congruence |]; repeat split.
  - intros set. destruct (fails w _ _); [discriminate |].
    destruct (sets_with_id studySetId (db w)) as [| row [| row' rows]] eqn:Hrows;
      [discriminate | | discriminate].
    intros [= <-]. repeat split. cbn.
    apply (sets_with_id_id studySetId (db w)). rewrite Hrows. left.
Qed.

Lemma getStudySet_finds_or_null_witness :
  fst (getStudySet "s1" calm)
  = Resolved (Some (StudySet.mk "s1" "ann" "Verbs" None 1 5 (Some 3)))
  /\ fst (getStudySet "s1" (flaky 1))
     = Resolved (Some (StudySet.mk "s1" "ann" "Verbs" None 1 5 (Some 0)))
  /\ fst (getStudySet "nowhere" calm) = Resolved None
  /\ console (snd (getStudySet "nowhere" calm))
     = [("Error fetching study set:"%string, NotSingleRow)].
Proof.
  destruct (getStudySet_finds_or_null "s1" calm) as (_ & _ & Hcalm & _).
  destruct (getStudySet_finds_or_null "s1" (flaky 1)) as (_ & _ & Hflaky & _).
  destruct (getStudySet_finds_or_null "nowhere" calm) as (_ & _ & _ & Hnone & _).
  destruct (Hcalm eq_refl (StudySetRow.mk "s1" "ann" "Verbs" None 1 5) eq_refl) as (R1 & _).
  destruct (Hflaky eq_refl (StudySetRow.mk "s1" "ann" "Verbs" None 1 5) eq_refl) as (R2 & _).
  destruct (Hnone eq_refl ltac:(vm_compute; discriminate)) as (R3 & _ & C3).
  rewrite R1, R2, R3, C3. repeat split.
Defined.

(** X8. The three read functions never write: whatever fails, [getStudySets],
    [getStudySet] and [getFlashcards] leave every table of the store as it
    was. *)
Theorem reads_leave_the_store
  (userId studySetId : string) (user : option string) (w : World) :
  db (snd (getStudySets userId w)) = db w
  /\ db (snd (getStudySet studySetId w)) = db w
  /\ db (snd (getFlashcards studySetId user w)) = db w.
Proof.
  rewrite getStudySets_run, getStudySet_run, getFlashcards_run. cbv zeta.
  split; [| split].
  - destruct (fails w _ (SelectStudySets userId)); reflexivity.
  - destruct (fails w _ (SelectStudySet studySetId)); [reflexivity |].
    destruct (sets_with_id studySetId (db w)) as [| row [| row' rows]]; reflexivity.
  - destruct (fails w _ (SelectFlashcards studySetId)); [reflexivity |].
    destruct (truthy user); reflexivity.
Qed.

Lemma fails_after_reads
  (userId studySetId : string) (user : option string) (w : World) :
  fails (snd (getStudySets userId w)) = fails w
  /\ fails (snd (getStudySet studySetId w)) = fails w
  /\ fails (snd (getFlashcards studySetId user w)) = fails w.
Proof.
  rewrite getStudySets_run, getStudySet_run, getFlashcards_run. cbv zeta.
  split; [| split].
  - destruct (fails w _ (SelectStudySets userId)); reflexivity.
  - destruct (fails w _ (SelectStudySet studySetId)); [reflexivity |].
    destruct (sets_with_id studySetId (db w)) as [| row [| row' rows]]; reflexivity.
  - destruct (fails w _ (SelectFlashcards studySetId)); [reflexivity |].
    destruct (truthy user); reflexivity.
Qed.

(** The cards [getFlashcards] resolves to in a world where every request is
    answered: as many as the set has. *)
Lemma getFlashcards_reliable_length
  (studySetId : string) (user : option string) (w : World) :
  reliable w ->
  exists cards,
    fst (getFlashcards studySetId user w) = Resolved cards
    /\ length cards = length (cards_of_set studySetId (db w)).
Proof.
  intros Hr. rewrite getFlashcards_run. cbv zeta. rewrite Hr.
  destruct (truthy user); eexists; (split; [reflexivity |]);
    rewrite length_map; apply Permutation_length, merge_sort_Permutation.
Qed.

(** X9. The counts agree with the lists. In worlds where every request is
    answered and on the same store, the [flashcard_count] of the set that
    [getStudySet] resolves to, and of every set in the list [getStudySets]
    resolves to, is the number of cards [getFlashcards] resolves to for that
    set. *)
Theorem counts_agree_with_lists
  (userId studySetId : string) (user : option string) (w w2 : World) :
  reliable w -> reliable w2 -> db w2 = db w ->
  (forall set,
     fst (getStudySet studySetId w) = Resolved (Some set) ->
     exists cards,
       fst (getFlashcards studySetId user w2) = Resolved cards
       /\ StudySet.flashcard_count set = Some (Z.of_nat (length cards)))
  /\ (forall sets set,
     fst (getStudySets userId w) = Resolved sets ->
     set ∈ sets ->
     exists cards,
       fst (getFlashcards (StudySet.id set) user w2) = Resolved cards
       /\ StudySet.flashcard_count set = Some (Z.of_nat (length cards))).
Proof.
  intros Hr Hr2 Hdb. split.
  - intros set. rewrite getStudySet_run. cbv zeta. rewrite Hr.
    destruct (sets_with_id studySetId (db w)) as [| row [| row' rows]] eqn:Hrows;
      [discriminate | | discriminate].
    intros [= <-].
    destruct (getFlashcards_reliable_length studySetId user w2 Hr2) as (cards & Hc & Hl).
    exists cards. split; [exact Hc |]. cbn. unfold counted. rewrite Hr, Hl, Hdb.
    rewrite (sets_with_id_id studySetId (db w) row) by (rewrite Hrows; left). reflexivity.
  - intros sets set. rewrite getStudySets_run. cbv zeta. rewrite Hr. intros [= <-] Hin.
    apply list_elem_of_lookup in Hin as [i Hi].
    rewrite list_lookup_imap in Hi.
    destruct (merge_sort newest_first (sets_of_user userId (db w)) !! i) as [row |];
      [| discriminate].
    cbn in Hi. injection Hi as <-.
    destruct (getFlashcards_reliable_length (StudySetRow.id row) user w2 Hr2)
      as (cards & Hc & Hl).
    exists cards. split; [exact Hc |]. cbn. unfold counted. rewrite Hr, Hl, Hdb. reflexivity.
Qed.

Lemma counts_agree_with_lists_witness :
  exists cards,
    fst (getFlashcards "s1" (Some "ann"%string) calm) = Resolved cards
    /\ Some 3 = Some (Z.of_nat (length cards)).
Proof.
  destruct (counts_agree_with_lists "ann" "s1" (Some "ann"%string) calm calm
              (fun n r => eq_refl) (fun n r => eq_refl) eq_refl) as [Hone _].
  exact (Hone (StudySet.mk "s1" "ann" "Verbs" None 1 5 (Some 3)) eq_refl).
Defined.


Lemma filter_excluded {A} (P Q : A -> Prop)
    `{forall x, Decision (P x)} `{forall x, Decision (Q x)} (l : list A) :
  (forall x, P x -> Q x -> False) -> filter P (filter Q l) = [].
Proof.
  intros HPQ. induction l as [| x l IH]; [reflexivity |].
  rewrite (filter_cons Q). destruct (decide (Q x)) as [Hq | Hq]; [| exact IH].
  rewrite filter_cons. destruct (decide (P x)) as [Hp | Hp]; [| exact IH].
  destruct (HPQ x Hp Hq).
Qed.

Lemma filter_kept {A} (P Q : A -> Prop)
    `{forall x, Decision (P x)} `{forall x, Decision (Q x)} (l : list A) :
  (forall x, P x -> Q x) -> filter P (filter Q l) = filter P l.
Proof.
  intros HPQ. induction l as [| x l IH]; [reflexivity |].
  rewrite (filter_cons Q), (filter_cons P x l).
  destruct (decide (Q x)) as [Hq | Hq].
  - rewrite filter_cons, IH. reflexivity.
  - rewrite IH. destruct (decide (P x)) as [Hp | Hp]; [| reflexivity].
    destruct (Hq (HPQ x Hp)).
Qed.

Lemma deleteStudySet_reliable (studySetId : string) (w : World) :
  reliable w ->
  deleteStudySet studySetId w =
  (Resolved true,
   mkWorld
     (mkStore (filter (fun r => StudySetRow.id r <> studySetId) (study_sets (db w)))
        (filter (fun r => FlashcardRow.study_set_id r <> studySetId) (flashcards (db w)))
        (starred_flashcards (db w)) (serial (db w)) (clock (db w)))
     (fails w)
     (trace w ++ [(DeleteFlashcards studySetId, true); (DeleteStudySet studySetId, true)])
     (console w)).
Proof.
  intros Hr. rewrite deleteStudySet_run. cbv zeta. rewrite !Hr. cbn [negb].
  rewrite app_nil_r. reflexivity.
Qed.

(** X10. Deleting a set and reading it back. In a world where every request
    is answered, [deleteStudySet] resolves to true, and afterwards
    [getStudySet] on the same identifier resolves to null, [getFlashcards]
    resolves to the empty list, and no list that [getStudySets] resolves to
    holds a set with that identifier. *)
Theorem delete_then_reads
  (studySetId userId : string) (user : option string) (w : World) :
  reliable w ->
  let w1 := snd (deleteStudySet studySetId w) in
  fst (deleteStudySet studySetId w) = Resolved true
  /\ fst (getStudySet studySetId w1) = Resolved None
  /\ fst (getFlashcards studySetId user w1) = Resolved []
  /\ (forall sets set,
        fst (getStudySets userId w1) = Resolved sets ->
        set ∈ sets -> StudySet.id set <> studySetId).
Proof.
  intros Hr. cbv zeta. rewrite (deleteStudySet_reliable studySetId w Hr). cbn [fst snd].
  split; [reflexivity |]. split; [| split].
  - rewrite getStudySet_run. cbv zeta. cbn [fails db trace]. rewrite Hr.
    unfold sets_with_id. cbn [study_sets].
    rewrite filter_excluded by (intros x Hx Hn; exact (Hn Hx)). reflexivity.
  - rewrite getFlashcards_run. cbv zeta. cbn [fails db trace]. rewrite Hr.
    unfold cards_of_set. cbn [flashcards].
    rewrite filter_excluded by (intros x Hx Hn; exact (Hn Hx)).
    destruct (truthy user); reflexivity.
  - intros sets set. rewrite getStudySets_run. cbv zeta. cbn [fails db trace]. rewrite Hr.
    intros [= <-] Hin.
    apply list_elem_of_lookup in Hin as [i Hi]. rewrite list_lookup_imap in Hi.
    destruct (merge_sort newest_first _ !! i) as [row |] eqn:Hrow; [| discriminate].
    cbn in Hi. injection Hi as <-. cbn [StudySet.id StudySet.with_flashcard_count].
    apply list_elem_of_lookup_2 in Hrow. rewrite merge_sort_Permutation in Hrow.
    unfold sets_of_user in Hrow. cbn [study_sets] in Hrow.
    apply list_elem_of_filter in Hrow as [_ Hrow].
    apply list_elem_of_filter in Hrow as [Hne _]. exact Hne.
Qed.

Lemma delete_then_reads_witness :
  fst (deleteStudySet "s1" calm) = Resolved true
  /\ fst (getStudySet "s1" (snd (deleteStudySet "s1" calm))) = Resolved None
  /\ fst (getFlashcards "s1" (Some "ann"%string) (snd (deleteStudySet "s1" calm)))
     = Resolved [].
Proof.
  destruct (delete_then_reads "s1" "ann" (Some "ann"%string) calm (fun n r => eq_refl))
    as (H1 & H2 & H3 & _).
  repeat split; assumption.
Defined.

(** X11. What [deleteStudySet] leaves alone, whatever fails: the association
    table is never touched (the stars of the deleted cards stay behind), and
    the rows and the cards of every other set are kept. In a world where
    every request is answered, deleting the same set again changes nothing
    more. *)
Theorem deleteStudySet_frame (studySetId other : string) (w : World) :
  let w1 := snd (deleteStudySet studySetId w) in
  starred_flashcards (db w1) = starred_flashcards (db w)
  /\ (other <> studySetId ->
      cards_of_set other (db w1) = cards_of_set other (db w)
      /\ sets_with_id other (db w1) = sets_with_id other (db w))
  /\ (reliable w ->
      fst (deleteStudySet studySetId w1) = Resolved true
      /\ db (snd (deleteStudySet studySetId w1)) = db w1).
Proof.
  cbv zeta. split; [| split].
  - rewrite deleteStudySet_run. reflexivity.
  - intros Hne. rewrite deleteStudySet_run. cbv zeta.
    unfold cards_of_set, sets_with_id. cbn [snd db flashcards study_sets].
    split.
    + destruct (negb (fails w _ (DeleteFlashcards studySetId))); [| reflexivity].
      apply filter_kept. intros x Hx. congruence.
    + destruct (negb (fails w _ (DeleteStudySet studySetId))); [| reflexivity].
      apply filter_kept. intros x Hx. congruence.
  - intros Hr. rewrite (deleteStudySet_reliable studySetId w Hr). cbn [snd].
    rewrite deleteStudySet_reliable by (intros n r; apply Hr).
    cbn [fst snd db study_sets flashcards starred_flashcards serial clock].
    split; [reflexivity |].
    rewrite !filter_kept by (intros x Hx; exact Hx). reflexivity.
Qed.

Lemma deleteStudySet_frame_witness :
  starred_flashcards (db (snd (deleteStudySet "s1" calm))) = [Starred.mk "ann" "c2"]
  /\ length (cards_of_set "s2" (db (snd (deleteStudySet "s1" calm)))) = 1%nat
  /\ db (snd (deleteStudySet "s1" (snd (deleteStudySet "s1" calm))))
     = db (snd (deleteStudySet "s1" calm)).
Proof.
  destruct (deleteStudySet_frame "s1" "s2" calm) as (Hstars & Hother & Hagain).
  destruct (Hother ltac:(discriminate)) as [Hcards _].
  destruct (Hagain (fun n r => eq_refl)) as [_ Hdb].
  rewrite Hstars, Hcards, Hdb. repeat split.
Defined.

Lemma toggle_keeps_tables (u f : string) (w : World) :
  study_sets (db (snd (toggleStar u f w))) = study_sets (db w)
  /\ flashcards (db (snd (toggleStar u f w))) = flashcards (db w).
Proof.
  rewrite toggleStar_run. cbv zeta. destruct (negb (fails w _ _)); split; reflexivity.
Qed.

Lemma toggle_keeps_other_pairs (u f u' f' : string) (w : World) :
  u' <> u \/ f' <> f ->
  stars_of u' f' (db (snd (toggleStar u f w))) = stars_of u' f' (db w).
Proof.
  intros Hne. rewrite stars_after_toggle.
  rewrite !decide_False by (intros [-> ->]; destruct Hne as [H | H]; apply H; reflexivity).
  rewrite app_nil_r. destruct (negb (fails w _ _)), (check_finds u f w); reflexivity.
Qed.

(** X12. What [toggleStar] leaves alone, whatever fails: the study sets and
    the flashcards are never touched, the association rows of every other
    pair are kept, and a call that rejects leaves the whole store as it
    was. *)
Theorem toggleStar_frame (u f u' f' : string) (w : World) :
  let w' := snd (toggleStar u f w) in
  study_sets (db w') = study_sets (db w)
  /\ flashcards (db w') = flashcards (db w)
  /\ (u' <> u \/ f' <> f -> stars_of u' f' (db w') = stars_of u' f' (db w))
  /\ (forall err, fst (toggleStar u f w) = Rejected err -> db w' = db w).
Proof.
  cbv zeta. split; [| split; [| split]].
  - apply toggle_keeps_tables.
  - apply toggle_keeps_tables.
  - apply toggle_keeps_other_pairs.
  - intros err. rewrite toggleStar_run. cbv zeta.
    destruct (negb (fails w _ _)); [discriminate | reflexivity].
Qed.

Lemma toggleStar_frame_witness :
  stars_of "ann" "c2" (db (snd (toggleStar "bob" "c2" calm))) = [Starred.mk "ann" "c2"]
  /\ db (snd (toggleStar "ann" "c2" (flaky 1))) = db (flaky 1).
Proof.
  destruct (toggleStar_frame "bob" "c2" "ann" "c2" calm) as (_ & _ & Hother & _).
  destruct (toggleStar_frame "ann" "c2" "ann" "c2" (flaky 1)) as (_ & _ & _ & Hrej).
  split.
  - rewrite Hother by (left; discriminate). reflexivity.
  - apply (Hrej RequestFailed). reflexivity.
Defined.

(** X13. The answer of [toggleStar] is the flag the next list shows. In a
    world where every request is answered, on a store with at most one row
    for the pair and for a non-empty user identifier: [toggleStar] resolves
    to the negation of the pair's flag, and a [getFlashcards] for that user
    afterwards gives every card with that identifier the new flag and every
    other card the flag it had. *)
Theorem toggle_then_list (u f studySetId : string) (w : World) :
  reliable w ->
  (length (stars_of u f (db w)) <= 1)%nat ->
  u <> ""%string ->
  let b := starred u f (db w) in
  let w1 := snd (toggleStar u f w) in
  fst (toggleStar u f w) = Resolved (negb b)
  /\ exists cards,
       fst (getFlashcards studySetId (Some u) w1) = Resolved cards
       /\ Flashcard.to_row <$> cards ≡ₚ cards_of_set studySetId (db w)
       /\ Forall (fun c =>
                    Flashcard.is_starred c
                    = Some (if decide (Flashcard.id c = f) then negb b
                            else starred u (Flashcard.id c) (db w))) cards.
Proof.
  intros Hr Hle Hu. cbv zeta.
  destruct (toggle_reliable u f w Hr Hle) as (Hres & Hflag & _ & Hr1).
  split; [exact Hres |].
  rewrite getFlashcards_run. cbv zeta. rewrite !Hr1.
  unfold truthy. rewrite decide_False by exact Hu. cbn [negb fst].
  destruct (toggle_keeps_tables u f w) as [_ Hcards].
  eexists. split; [reflexivity |].
  unfold cards_of_set. rewrite Hcards. fold (cards_of_set studySetId (db w)).
  split.
  - rewrite <- list_fmap_compose. erewrite list_fmap_ext; [rewrite list_fmap_id |].
    + apply merge_sort_Permutation.
    + intros i [a b c d e g] _. reflexivity.
  - apply Forall_fmap, Forall_true. intros card. unfold compose.
    cbn [Flashcard.is_starred Flashcard.with_is_starred Flashcard.id]. f_equal.
    rewrite Hr1. cbn [negb].
    rewrite starred_ids_flag. case_decide as Hid.
    + rewrite Hid. exact Hflag.
    + unfold starred.
      rewrite toggle_keeps_other_pairs by (right; exact Hid). reflexivity.
Qed.

Lemma toggle_then_list_witness :
  fst (toggleStar "ann" "c3" calm) = Resolved true
  /\ exists cards,
       fst (getFlashcards "s1" (Some "ann"%string) (snd (toggleStar "ann" "c3" calm)))
       = Resolved cards
       /\ Flashcard.is_starred <$> cards = [Some true; Some true; Some false].
Proof.
  destruct (toggle_then_list "ann" "c3" "s1" calm (fun n r => eq_refl))
    as (Hres & cards & Hc & _ & _).
  - vm_compute. lia.
  - discriminate.
  - split; [exact Hres |]. exists cards. split; [exact Hc |].
    assert (E : Resolved cards
                = fst (getFlashcards "s1" (Some "ann"%string)
                         (snd (toggleStar "ann" "c3" calm))))
      by (symmetry; exact Hc).
    vm_compute in E. injection E as ->. reflexivity.
Defined.


Lemma createStudySet_reliable
    (userId title : string) (description : option string) (w : World) :
  reliable w ->
  createStudySet userId title description w =
  let row := StudySetRow.mk (pretty (serial (db w))) userId title (or_null description)
               (clock (db w)) (clock (db w)) in
  (Resolved (Some (StudySet.of_row row)),
   mkWorld
     (mkStore (study_sets (db w) ++ [row]) (flashcards (db w))
        (starred_flashcards (db w)) (N.succ (serial (db w))) (clock (db w) + 1))
     (fails w)
     (trace w ++ [(InsertStudySet userId title (or_null description), true)])
     (console w)).
Proof. intros Hr. rewrite createStudySet_run. cbv zeta. rewrite Hr. reflexivity. Qed.

Lemma getStudySets_reliable (userId : string) (w : World) :
  reliable w ->
  fst (getStudySets userId w)
  = Resolved
      (map (fun row =>
              StudySet.with_flashcard_count row
                (Z.of_nat (length (cards_of_set (StudySetRow.id row) (db w)))))
         (merge_sort newest_first (sets_of_user userId (db w)))).
Proof.
  intros Hr. rewrite getStudySets_run. cbv zeta. rewrite Hr. cbn [fst]. f_equal.
  rewrite <- imap_const. apply imap_ext. intros i x _. unfold counted. rewrite Hr.
  reflexivity.
Qed.

(** X14. A created set shows up in its owner's list and in no other. In a
    world where every request is answered, [createStudySet] resolves to a
    set; the list [getStudySets] then resolves to for the owner has one set
    more than the owner had and holds the created set with a flashcard count;
    the list of any other user is what it was before. *)
Theorem create_then_list
  (userId title other : string) (description : option string) (w : World) :
  reliable w ->
  let w1 := snd (createStudySet userId title description w) in
  exists set sets,
    fst (createStudySet userId title description w) = Resolved (Some set)
    /\ fst (getStudySets userId w1) = Resolved sets
    /\ length sets = S (length (sets_of_user userId (db w)))
    /\ (exists n,
          StudySet.mk (StudySet.id set) userId title (StudySet.description set)
            (StudySet.created_at set) (StudySet.updated_at set) (Some n) ∈ sets)
    /\ (other <> userId ->
        fst (getStudySets other w1) = fst (getStudySets other w)).
Proof.
  intros Hr. cbv zeta.
  rewrite (createStudySet_reliable userId title description w Hr). cbv zeta. cbn [fst snd].
  set (row := StudySetRow.mk (pretty (serial (db w))) userId title (or_null description)
                (clock (db w)) (clock (db w))).
  set (w1 := mkWorld _ _ _ _).
  assert (Hr1 : reliable w1) by (intros n r; apply Hr).
  assert (Hmine : sets_of_user userId (db w1) = sets_of_user userId (db w) ++ [row]).
  { unfold sets_of_user. cbn [db w1 study_sets]. rewrite filter_app. f_equal.
    rewrite filter_cons, decide_True by reflexivity. reflexivity. }
  do 2 eexists. split; [reflexivity |].
  split; [apply (getStudySets_reliable userId w1 Hr1) |].
  split; [| split].
  - rewrite length_map, (Permutation_length (merge_sort_Permutation _ _)), Hmine,
      length_app, Nat.add_1_r. reflexivity.
  - eexists. apply list_elem_of_fmap. exists row. split; [reflexivity |].
    rewrite merge_sort_Permutation, Hmine. apply elem_of_app. right. left.
  - intros Hne. rewrite (getStudySets_reliable other w1 Hr1), (getStudySets_reliable other w Hr).
    assert (Hother : sets_of_user other (db w1) = sets_of_user other (db w)).
    { unfold sets_of_user. cbn [db w1 study_sets]. rewrite filter_app.
      rewrite (filter_cons _ row), decide_False by (cbn; congruence).
      rewrite filter_nil. apply app_nil_r. }
    rewrite Hother. reflexivity.
Qed.

Lemma create_then_list_witness :
  exists sets,
    fst (getStudySets "bob" (snd (createStudySet "bob" "Physics" None calm))) = Resolved sets
    /\ StudySet.title <$> sets = ["Physics"; "Maths"]%string
    /\ fst (getStudySets "ann" (snd (createStudySet "bob" "Physics" None calm)))
       = fst (getStudySets "ann" calm).
Proof.
  destruct (create_then_list "bob" "Physics" "ann" None calm (fun n r => eq_refl))
    as (set & sets & _ & Hsets & _ & _ & Hother).
  exists sets. split; [exact Hsets |]. split; [| apply Hother; discriminate].
  assert (E : Resolved sets
              = fst (getStudySets "bob" (snd (createStudySet "bob" "Physics" None calm))))
    by (symmetry; exact Hsets).
  vm_compute in E. injection E as ->. reflexivity.
Defined.

(** X15. Creating a set and getting it back. In a world where every request
    is answered, if no row of the store already had the identifier the
    created set was given, [getStudySet] on that identifier resolves to the
    created set, annotated with the number of cards that refer to it. *)
Theorem create_then_get
  (userId title : string) (description : option string) (set : StudySet.t) (w : World) :
  reliable w ->
  fst (createStudySet userId title description w) = Resolved (Some set) ->
  sets_with_id (StudySet.id set) (db w) = [] ->
  let w1 := snd (createStudySet userId title description w) in
  fst (getStudySet (StudySet.id set) w1)
  = Resolved
      (Some (StudySet.mk (StudySet.id set) userId title (StudySet.description set)
               (StudySet.created_at set) (StudySet.updated_at set)
               (Some (Z.of_nat (length (cards_of_set (StudySet.id set) (db w))))))).
Proof.
  intros Hr. rewrite (createStudySet_reliable userId title description w Hr).
  cbv zeta. cbn [fst snd]. intros [= <-]. cbn [StudySet.id StudySet.of_row StudySetRow.id].
  intros Hfresh. rewrite getStudySet_run. cbv zeta. cbn [fails db trace].
  rewrite Hr. unfold sets_with_id in *. cbn [study_sets].
  rewrite filter_app, Hfresh, filter_cons, decide_True by reflexivity.
  cbn [app filter fst]. unfold counted. cbn [fails]. rewrite Hr. reflexivity.
Qed.

Lemma create_then_get_witness :
  fst (getStudySet "4" (snd (createStudySet "bob" "Physics" (Some ""%string) calm)))
  = Resolved (Some (StudySet.mk "4" "bob" "Physics" None 10 10 (Some 0))).
Proof.
  exact (create_then_get "bob" "Physics" (Some ""%string)
           (StudySet.mk "4" "bob" "Physics" None 10 10 None) calm
           (fun n r => eq_refl) eq_refl eq_refl).
Defined.

(** X16. The page cannot tell a failed fetch from nothing there. For a signed
    in user, when the study-set query fails, as when no set has the
    identifier, the page renders the not-found view whatever the cards; and
    when the flashcards query fails, as when the set has no card, it renders
    the no-flashcards view. *)
Theorem failed_fetch_views
  (studySetId u : string) (s : Session.State) (w : World) :
  u <> ""%string ->
  let n := length (trace w) in
  (fails w n (SelectStudySet studySetId) = true \/ sets_with_id studySetId (db w) = [] ->
   forall cards,
     exists found,
       fst (getStudySet studySetId w) = Resolved found
       /\ Page.render false (Some u) found cards s = Page.NotFound)
  /\ (fails w n (SelectFlashcards studySetId) = true \/ cards_of_set studySetId (db w) = [] ->
      forall studySet,
        exists cards,
          fst (getFlashcards studySetId (Some u) w) = Resolved cards
          /\ Page.render false (Some u) (Some studySet) cards s = Page.NoFlashcards).
Proof.
  intros Hu. cbv zeta.
  assert (Huser : forall found cards,
            Page.render false (Some u) found cards s
            = match found with
              | None => Page.NotFound
              | Some _ =>
                  if Session.cardCount cards =? 0 then Page.NoFlashcards
                  else match Page.at_index cards (Session.currentCardIndex s) with
                       | None => Page.RenderError
                       | Some currentCard =>
                           Page.Studying
                             (Page.mkStudy currentCard (Session.currentCardIndex s + 1)
                                (Session.cardCount cards) (Session.isFlipped s)
                                (bool_decide (Flashcard.is_starred currentCard = Some true))
                                (Session.cardCount cards <=? 1))
                       end
              end).
  { intros found cards. unfold Page.render, truthy. rewrite decide_False by exact Hu.
    rewrite bool_decide_eq_true_2 by (eexists; reflexivity). reflexivity. }
  split.
  - intros H cards. rewrite getStudySet_run. cbv zeta.
    destruct (fails w _ (SelectStudySet studySetId)).
    + eexists. split; [reflexivity | apply Huser].
    + destruct H as [H | H]; [discriminate |]. rewrite H.
      eexists. split; [reflexivity | apply Huser].
  - intros H studySet. rewrite getFlashcards_run. cbv zeta.
    destruct (fails w _ (SelectFlashcards studySetId)).
    + eexists. split; [reflexivity | rewrite Huser; reflexivity].
    + destruct H as [H | H]; [discriminate |]. rewrite H.
      unfold truthy. rewrite decide_False by exact Hu. cbn [fst].
      eexists. split; [reflexivity | rewrite Huser; reflexivity].
Qed.

Lemma failed_fetch_views_witness :
  (exists found,
     fst (getStudySet "s1" (flaky 0)) = Resolved found
     /\ Page.render false (Some "ann"%string) found four_cards Session.initial
        = Page.NotFound)
  /\ (exists cards,
        fst (getFlashcards "s1" (Some "ann"%string) (flaky 0)) = Resolved cards
        /\ Page.render false (Some "ann"%string)
             (Some (StudySet.mk "s1" "ann" "Verbs" None 1 5 (Some 3))) cards Session.initial
           = Page.NoFlashcards).
Proof.
  destruct (failed_fetch_views "s1" "ann" Session.initial (flaky 0) ltac:(discriminate))
    as [Hset Hcards].
  split.
  - apply Hset. left. reflexivity.
  - apply Hcards. left. reflexivity.
Defined.


(** X17. The dashboard never shows its error view for a failure of the store.
    For a signed in user and a settled query, the view is never the error
    view, since [getStudySets] never rejects. When the study-set query fails,
    as when the user has no set, the view is the no-sets view; when it is
    answered and the user has sets, the view is the grid, whose header counts
    the user's sets and whose tiles link to them newest first. *)
Theorem dashboard_never_shows_error (u : string) (w : World) :
  u <> ""%string ->
  let view := Dashboard.render false (Some u) (Dashboard.settled (fst (getStudySets u w))) in
  view <> Dashboard.ErrorView
  /\ (fails w (length (trace w)) (SelectStudySets u) = true \/ sets_of_user u (db w) = [] ->
      view = Dashboard.NoSets)
  /\ (fails w (length (trace w)) (SelectStudySets u) = false ->
      sets_of_user u (db w) <> [] ->
      exists tiles,
        view = Dashboard.Grid (Z.of_nat (length (sets_of_user u (db w))))
                 (if Z.of_nat (length (sets_of_user u (db w))) =? 1 then "set" else "sets")
                 tiles
        /\ Dashboard.target <$> tiles
           = StudySetRow.id <$> merge_sort newest_first (sets_of_user u (db w))).
Proof.
  intros Hu. cbv zeta. unfold Dashboard.render, truthy. rewrite decide_False by exact Hu.
  rewrite bool_decide_eq_true_2 by (eexists; reflexivity). cbn [orb negb].
  rewrite getStudySets_run. cbv zeta.
  destruct (fails w _ (SelectStudySets u)); cbn [fst snd Dashboard.settled from_option id length].
  { split; [discriminate |]. split; [reflexivity | discriminate]. }
  rewrite length_imap.
  rewrite (Permutation_length (merge_sort_Permutation newest_first (sets_of_user u (db w)))).
  destruct (sets_of_user u (db w)) as [| row rows] eqn:Hrows.
  { split; [discriminate |]. split; [reflexivity | congruence]. }
  destruct (Z.eqb_spec (Z.of_nat (length (row :: rows))) 0) as [E | _];
    [cbn [length] in E; lia |].
  split; [discriminate |]. split; [intros [H | H]; discriminate |].
  intros _ _. eexists. split; [reflexivity |].
  rewrite <- list_fmap_compose, fmap_imap, <- (imap_const StudySetRow.id).
  apply imap_ext. reflexivity.
Qed.

Lemma dashboard_never_shows_error_witness :
  Dashboard.render false (Some "ann"%string)
    (Dashboard.settled (fst (getStudySets "ann" (flaky 0))))
  = Dashboard.NoSets
  /\ Dashboard.render false (Some "ann"%string)
       (Dashboard.settled (fst (getStudySets "ann" calm)))
     = Dashboard.Grid 2 "sets"
         [Dashboard.mkTile "s2" "Nouns" (Some "a first try"%string) 1 "card";
          Dashboard.mkTile "s1" "Verbs" None 3 "cards"].
Proof.
  destruct (dashboard_never_shows_error "ann" (flaky 0) ltac:(discriminate))
    as (_ & Hfail & _).
  split; [apply Hfail; left; reflexivity | vm_compute; reflexivity].
Defined.

End DataAccessExtras.
